(** * Delivery-target resolution and channel action dispatch

    A shallow embedding of

      - [src/cron/isolated-agent/delivery-target.ts]  (resolveDeliveryTarget)
      - [src/channels/plugins/message-actions.ts]     (the action dispatcher)
      - the refactored dispatcher that routes the capability queries through
        [supportsMessageFeature] / [supportsMessageFeatureForChannel]

    together with the properties the routing specification states about them.

    Conventions.  A JavaScript string is a [string]: a sequence of code units
    in the range 0..255.  An optional property ([x?: T], possibly [undefined])
    is an [option].  A value tested by [if], [!], [&&], [||] or [?:] goes
    through an explicit truthiness function.  A call that may throw or reject
    returns an [outcome]. *)

From Stdlib Require Import String Ascii List ZArith Bool.
From stdpp Require Import gmap strings pretty.
Import ListNotations.

Local Open Scope string_scope.

(* ===================================================================== *)
(** ** JavaScript values                                                  *)
(* ===================================================================== *)

Module Js.

(** [WhiteSpace] and [LineTerminator] code points below 256: TAB, LF, VT,
    FF, CR, SP and NBSP.  These are the code units [String.prototype.trim]
    strips. *)
Definition isWhiteSpace (c : ascii) : bool :=
  match N_of_ascii c with
  | 9%N | 10%N | 11%N | 12%N | 13%N | 32%N | 160%N => true
  | _ => false
  end.

Definition isEmpty (s : string) : bool :=
  match s with EmptyString => true | String _ _ => false end.

Fixpoint trimStart (s : string) : string :=
  match s with
  | EmptyString => EmptyString
  | String c r => if isWhiteSpace c then trimStart r else s
  end.

Fixpoint trimEnd (s : string) : string :=
  match s with
  | EmptyString => EmptyString
  | String c r =>
      let r' := trimEnd r in
      if isWhiteSpace c && isEmpty r' then EmptyString else String c r'
  end.

(** [s.trim()] *)
Definition trim (s : string) : string := trimEnd (trimStart s).

(** Every code unit of [s] is white space (the empty string included). *)
Fixpoint whitespaceOnly (s : string) : bool :=
  match s with
  | EmptyString => true
  | String c r => isWhiteSpace c && whitespaceOnly r
  end.

(** Truthiness of a [string | undefined]: [undefined] and [""] are falsy. *)
Definition truthy (o : option string) : bool :=
  match o with
  | Some s => negb (isEmpty s)
  | None => false
  end.

(** Truthiness of a [boolean | undefined]. *)
Definition truthyBool (o : option bool) : bool :=
  match o with
  | Some b => b
  | None => false
  end.

(** [a ?? b] with a defined right operand. *)
Definition nullish {A : Type} (a : option A) (b : A) : A :=
  match a with
  | Some x => x
  | None => b
  end.

(** [a === b] for [a : string | undefined] and [b : string | undefined]. *)
Definition strictEq (a b : option string) : bool :=
  match a, b with
  | Some x, Some y => String.eqb x y
  | None, None => true
  | _, _ => false
  end.

End Js.

(* ===================================================================== *)
(** ** Property lookup on plain objects                                   *)
(* ===================================================================== *)

(** The names every plain object inherits from [Object.prototype]. *)
Definition objectPrototypeKeys : list string :=
  ["constructor"; "hasOwnProperty"; "isPrototypeOf"; "propertyIsEnumerable";
   "toLocaleString"; "toString"; "valueOf"; "__proto__";
   "__defineGetter__"; "__defineSetter__"; "__lookupGetter__";
   "__lookupSetter__"].

Definition inheritedKey (key : string) : bool :=
  existsb (String.eqb key) objectPrototypeKeys.

(** What [object[key]] finds on a plain object used as a dictionary: an own
    property, an inherited member (a function, or the prototype itself:
    neither nullish nor an entry), or [undefined]. *)
Inductive Lookup (A : Type) : Type :=
| Own (a : A)
| Inherited
| Absent.

Arguments Own {A} a.
Arguments Inherited {A}.
Arguments Absent {A}.

(** [object[key]], the own properties of [object] being [own]. *)
Definition objectGet {A : Type} (own : gmap string A) (key : string) : Lookup A :=
  match own !! key with
  | Some a => Own a
  | None => if inheritedKey key then Inherited else Absent
  end.

(** [found ?? other] *)
Definition lookupOrElse {A : Type} (found other : Lookup A) : Lookup A :=
  match found with
  | Absent => other
  | _ => found
  end.

(** A thread identifier is a [string | number]. *)
Inductive ThreadId : Type :=
| ThreadIdString (s : string)
| ThreadIdNumber (n : Z).

(** Truthiness of a [string | number | undefined]: [""] and [0] are falsy. *)
Definition truthyThreadId (o : option ThreadId) : bool :=
  match o with
  | Some (ThreadIdString s) => negb (Js.isEmpty s)
  | Some (ThreadIdNumber n) => negb (Z.eqb n 0)
  | None => false
  end.

(* ===================================================================== *)
(** ** Calls that may throw                                               *)
(* ===================================================================== *)

Inductive outcome (E A : Type) : Type :=
| Returned (a : A)
| Threw (e : E).

Arguments Returned {E A} a.
Arguments Threw {E A} e.

Definition bind {E A B : Type} (m : outcome E A) (k : A -> outcome E B)
  : outcome E B :=
  match m with
  | Returned a => k a
  | Threw e => Threw e
  end.

(** [try { body } catch { handler }] *)
Definition tryCatch {E A : Type} (body : outcome E A)
    (handler : E -> outcome E A) : outcome E A :=
  match body with
  | Returned a => Returned a
  | Threw e => handler e
  end.

(* ===================================================================== *)
(** ** Delivery-target resolution: data model                             *)
(* ===================================================================== *)

(** ["explicit" | "implicit"] *)
Inductive TargetMode : Type := Explicit | Implicit.

(** ["origin" | "current"] *)
Inductive CronDeliveryMode : Type := ModeOrigin | ModeCurrent.

(** [CronOrigin]: where the job was created.  The declaration ([../types])
    is not part of the sources at hand; these are the properties the resolver
    reads, all optional. *)
Record CronOrigin : Type := {
  origin_channel : option string;
  origin_to : option string;
  origin_accountId : option string;
  origin_threadId : option ThreadId
}.

(** The [options] argument. *)
Record ResolveOptions : Type := {
  options_origin : option CronOrigin;
  options_deliveryMode : option CronDeliveryMode
}.

(** The [jobPayload] argument; [channel] is ["last"] or a channel id. *)
Record JobPayload : Type := {
  payload_channel : option string;
  payload_to : option string;
  payload_sessionKey : option string
}.

(** Modelled from the spec: the [SessionEntry] type declaration
    ([config/sessions/types]) is not part of the sources at hand; the
    data model lists its [last*] fields, which is all the resolver's
    collaborators read. *)
Record SessionEntry : Type := {
  entry_sessionId : string;
  entry_updatedAt : Z;
  entry_lastChannel : option string;
  entry_lastTo : option string;
  entry_lastAccountId : option string;
  entry_lastThreadId : option ThreadId
}.

(** Argument of [resolveSessionDeliveryTarget].  [entry] is whatever the
    store lookup found. *)
Record SessionTargetParams : Type := {
  stp_entry : Lookup SessionEntry;
  stp_requestedChannel : string;
  stp_explicitTo : option string;
  stp_fallbackChannel : option string;
  stp_allowMismatchedLastTo : bool;
  stp_mode : option TargetMode
}.

(** Result of [resolveSessionDeliveryTarget], with the fields
    [resolveDeliveryTarget] reads. *)
Record SessionDeliveryTarget : Type := {
  sdt_channel : option string;
  sdt_to : option string;
  sdt_accountId : option string;
  sdt_threadId : option ThreadId;
  sdt_threadIdExplicit : option bool;
  sdt_mode : TargetMode;
  sdt_lastChannel : option string;
  sdt_lastTo : option string
}.

(** Argument of [resolveOutboundTarget]. *)
Record OutboundTargetParams (Cfg : Type) : Type := {
  otp_channel : string;
  otp_to : string;
  otp_cfg : Cfg;
  otp_accountId : option string;
  otp_mode : TargetMode
}.

Arguments otp_channel {Cfg} _.
Arguments otp_to {Cfg} _.
Arguments otp_cfg {Cfg} _.
Arguments otp_accountId {Cfg} _.
Arguments otp_mode {Cfg} _.

(** [{ ok: true, to } | { ok: false, error }] *)
Inductive OutboundTargetResolution (Err : Type) : Type :=
| TargetOk (to : string)
| TargetRejected (error : Err).

Arguments TargetOk {Err} to.
Arguments TargetRejected {Err} error.

(** The value [resolveDeliveryTarget] resolves to. *)
Record DeliveryTarget (Err : Type) : Type := {
  target_channel : string;
  target_to : option string;
  target_accountId : option string;
  target_threadId : option ThreadId;
  target_mode : TargetMode;
  target_error : option Err
}.

Arguments target_channel {Err} _.
Arguments target_to {Err} _.
Arguments target_accountId {Err} _.
Arguments target_threadId {Err} _.
Arguments target_mode {Err} _.
Arguments target_error {Err} _.

(** What [delivery-target.ts] imports.  None of these modules is part of the
    sources at hand, so the resolver is verified against every
    implementation of them.  [Cfg] is [OpenClawConfig]; [Err] is the type of
    error values. *)
Class ResolverImports (Cfg Err : Type) : Type := {
  (** [DEFAULT_CHAT_CHANNEL] *)
  DEFAULT_CHAT_CHANNEL : string;
  (** [cfg.session?.store] *)
  sessionStoreSetting : Cfg -> option string;
  resolveAgentMainSessionKey : Cfg -> string -> string;
  resolveStorePath : option string -> string -> string;
  (** The store is read once per call, as a snapshot: a plain object, given
      by its own properties. *)
  loadSessionStore : string -> gmap string SessionEntry;
  (** Rejects when no channel can be selected; resolves to [selection.channel]
      otherwise. *)
  resolveMessageChannelSelection : Cfg -> outcome Err string;
  resolveOutboundTarget : OutboundTargetParams Cfg -> OutboundTargetResolution Err;
  resolveSessionDeliveryTarget : SessionTargetParams -> SessionDeliveryTarget;
  buildChannelAccountBindings : Cfg -> gmap string (gmap string (list string));
  normalizeAgentId : string -> string
}.

(* ===================================================================== *)
(** ** [resolveDeliveryTarget]                                            *)
(* ===================================================================== *)

Section Resolver.

Context {Cfg Err : Type} {imports : ResolverImports Cfg Err}.

Variable cfg : Cfg.
Variable agentId : string.
Variable jobPayload : JobPayload.
Variable options : option ResolveOptions.

(** [options?.origin] *)
Definition origin : option CronOrigin :=
  match options with
  | Some o => options_origin o
  | None => None
  end.

(** [options?.deliveryMode ?? "origin"] *)
Definition deliveryMode : CronDeliveryMode :=
  Js.nullish (match options with
              | Some o => options_deliveryMode o
              | None => None
              end) ModeOrigin.

(** [typeof jobPayload.channel === "string" && jobPayload.channel !== "last"] *)
Definition hasExplicitChannel : bool :=
  match payload_channel jobPayload with
  | Some c => negb (String.eqb c "last")
  | None => false
  end.

(** [typeof jobPayload.to === "string" && jobPayload.to.trim() !== ""] *)
Definition hasExplicitTo : bool :=
  match payload_to jobPayload with
  | Some t => negb (String.eqb (Js.trim t) "")
  | None => false
  end.

(** The truthiness of [useOrigin]; the source only ever tests it. *)
Definition useOrigin : bool :=
  match deliveryMode, origin with
  | ModeOrigin, Some o =>
      negb hasExplicitChannel && negb hasExplicitTo
      && (Js.truthy (origin_channel o) || Js.truthy (origin_to o))
  | _, _ => false
  end.

(** [origin?.channel] and [origin?.to] *)
Definition originChannel : option string :=
  match origin with Some o => origin_channel o | None => None end.

Definition originTo : option string :=
  match origin with Some o => origin_to o | None => None end.

(** The [return] of the origin short-circuit (lines 60 to 74), for an origin
    [o] whose channel is [ch] and whose recipient is [t]. *)
Definition routeToOrigin (o : CronOrigin) (ch t : string) : DeliveryTarget Err :=
  let docked :=
    resolveOutboundTarget
      {| otp_channel := ch; otp_to := t; otp_cfg := cfg;
         otp_accountId := origin_accountId o; otp_mode := Explicit |} in
  {| target_channel := ch;
     target_to := match docked with TargetOk t' => Some t' | TargetRejected _ => None end;
     target_accountId := origin_accountId o;
     target_threadId := origin_threadId o;
     target_mode := Explicit;
     target_error := match docked with TargetOk _ => None | TargetRejected e => Some e end |}.

Definition requestedChannel : string :=
  if hasExplicitChannel then Js.nullish (payload_channel jobPayload) "last"
  else if useOrigin && Js.truthy originChannel then Js.nullish originChannel "last"
  else "last".

Definition explicitTo : option string :=
  if hasExplicitTo then payload_to jobPayload
  else if useOrigin && Js.truthy originTo then originTo
  else None.

Definition allowMismatchedLastTo : bool := String.eqb requestedChannel "last".

Definition mainSessionKey : string := resolveAgentMainSessionKey cfg agentId.
Definition storePath : string := resolveStorePath (sessionStoreSetting cfg) agentId.
Definition store : gmap string SessionEntry := loadSessionStore storePath.

(** [jobPayload.sessionKey?.trim()] *)
Definition threadSessionKey : option string :=
  match payload_sessionKey jobPayload with
  | Some k => Some (Js.trim k)
  | None => None
  end.

(** [threadSessionKey ? store[threadSessionKey] : undefined] *)
Definition threadEntry : Lookup SessionEntry :=
  match threadSessionKey with
  | Some k => if Js.isEmpty k then Absent else objectGet store k
  | None => Absent
  end.

(** [threadEntry ?? store[mainSessionKey]] *)
Definition main : Lookup SessionEntry :=
  lookupOrElse threadEntry (objectGet store mainSessionKey).

Definition preliminary : SessionDeliveryTarget :=
  resolveSessionDeliveryTarget
    {| stp_entry := main;
       stp_requestedChannel := requestedChannel;
       stp_explicitTo := explicitTo;
       stp_fallbackChannel := None;
       stp_allowMismatchedLastTo := allowMismatchedLastTo;
       stp_mode := None |}.

(** Lines 108 to 121.  The only awaited call that may reject is the channel
    selection, and its rejection is caught. *)
Definition fallbackChannel : outcome Err (option string) :=
  if negb (Js.truthy (sdt_channel preliminary)) then
    if useOrigin && Js.truthy originChannel then Returned originChannel
    else
      tryCatch
        (bind (resolveMessageChannelSelection cfg)
              (fun selection => Returned (Some selection)))
        (fun _ =>
           Returned (Some (Js.nullish (sdt_lastChannel preliminary)
                                      DEFAULT_CHAT_CHANNEL)))
  else Returned None.

Definition resolved (fallback : option string) : SessionDeliveryTarget :=
  if Js.truthy fallback then
    resolveSessionDeliveryTarget
      {| stp_entry := main;
         stp_requestedChannel := requestedChannel;
         stp_explicitTo := explicitTo;
         stp_fallbackChannel := fallback;
         stp_allowMismatchedLastTo := allowMismatchedLastTo;
         stp_mode := Some (sdt_mode preliminary) |}
  else preliminary.

(** [resolved.channel ?? fallbackChannel ?? DEFAULT_CHAT_CHANNEL] *)
Definition resolvedChannel (fallback : option string) : string :=
  Js.nullish (sdt_channel (resolved fallback))
             (Js.nullish fallback DEFAULT_CHAT_CHANNEL).

(** Lines 145 to 153: the account bound to the agent when the session names
    none. *)
Definition resolvedAccountId (fallback : option string) : option string :=
  let accountId := sdt_accountId (resolved fallback) in
  let channel := resolvedChannel fallback in
  if negb (Js.truthy accountId) && negb (Js.isEmpty channel) then
    match buildChannelAccountBindings cfg !! channel with
    | Some byAgent =>
        match byAgent !! normalizeAgentId agentId with
        | Some (first :: _) => Some first
        | _ => accountId
        end
    | None => accountId
    end
  else accountId.

(** Lines 159 to 163: the thread-id guard. *)
Definition resolvedThreadId (r : SessionDeliveryTarget) : option ThreadId :=
  if truthyThreadId (sdt_threadId r)
     && (Js.truthyBool (sdt_threadIdExplicit r)
         || (Js.truthy (sdt_to r) && Js.strictEq (sdt_to r) (sdt_lastTo r)))
  then sdt_threadId r
  else None.

(** Lines 165 to 189: normalisation of the recipient candidate. *)
Definition finish (fallback : option string) : DeliveryTarget Err :=
  let r := resolved fallback in
  let channel := resolvedChannel fallback in
  let mode := sdt_mode r in
  let accountId := resolvedAccountId fallback in
  let threadId := resolvedThreadId r in
  match sdt_to r with
  | Some toCandidate =>
      if Js.isEmpty toCandidate then
        {| target_channel := channel; target_to := None;
           target_accountId := accountId; target_threadId := threadId;
           target_mode := mode; target_error := None |}
      else
        let docked :=
          resolveOutboundTarget
            {| otp_channel := channel; otp_to := toCandidate; otp_cfg := cfg;
               otp_accountId := accountId; otp_mode := mode |} in
        {| target_channel := channel;
           target_to := match docked with TargetOk t => Some t | TargetRejected _ => None end;
           target_accountId := accountId; target_threadId := threadId;
           target_mode := mode;
           target_error := match docked with TargetOk _ => None | TargetRejected e => Some e end |}
  | None =>
      {| target_channel := channel; target_to := None;
         target_accountId := accountId; target_threadId := threadId;
         target_mode := mode; target_error := None |}
  end.

(** The truthiness of [useOrigin && origin.channel && origin.to], with the
    origin and its two fields when it holds. *)
Definition originShortCircuit : option (CronOrigin * string * string) :=
  match origin with
  | Some o =>
      match origin_channel o, origin_to o with
      | Some ch, Some t =>
          if useOrigin && negb (Js.isEmpty ch) && negb (Js.isEmpty t)
          then Some (o, ch, t) else None
      | _, _ => None
      end
  | None => None
  end.

Definition resolveDeliveryTarget : outcome Err (DeliveryTarget Err) :=
  match originShortCircuit with
  | Some (o, ch, t) => Returned (routeToOrigin o ch t)
  | None => bind fallbackChannel (fun fallback => Returned (finish fallback))
  end.

End Resolver.

(* ===================================================================== *)
(** ** Channel message actions: data model                                *)
(* ===================================================================== *)

(** [ChannelMessageActionContext], with the properties the dispatcher reads
    (its declaration is in [./types], not part of the sources at hand).
    [Params] stands for the properties it passes through untouched;
    [toolContext] is tested for truthiness only. *)
Record ChannelMessageActionContext (Params : Type) : Type := {
  ctx_channel : string;
  ctx_action : string;
  ctx_requesterSenderId : option string;
  ctx_toolContext : option bool;
  ctx_params : Params
}.

Arguments ctx_channel {Params} _.
Arguments ctx_action {Params} _.
Arguments ctx_requesterSenderId {Params} _.
Arguments ctx_toolContext {Params} _.
Arguments ctx_params {Params} _.

(** [{ ...ctx, channel: id }] *)
Definition withChannel {Params : Type} (ctx : ChannelMessageActionContext Params)
    (id : string) : ChannelMessageActionContext Params :=
  {| ctx_channel := id;
     ctx_action := ctx_action ctx;
     ctx_requesterSenderId := ctx_requesterSenderId ctx;
     ctx_toolContext := ctx_toolContext ctx;
     ctx_params := ctx_params ctx |}.

(** [params: { cfg; channel? }] of the per-channel queries.  It is also the
    shape of the object a feature handler is called with: [{ cfg }] is the
    object without a [channel] property. *)
Record FeatureParams (Cfg : Type) : Type := {
  params_cfg : Cfg;
  params_channel : option string
}.

Arguments params_cfg {Cfg} _.
Arguments params_channel {Cfg} _.

(** [{ cfg }] *)
Definition cfgOnly {Cfg : Type} (cfg : Cfg) : FeatureParams Cfg :=
  {| params_cfg := cfg; params_channel := None |}.

(** What a feature handler answers: a boolean, or any other value, of which
    only the truthiness can matter. *)
Inductive FeatureAnswer : Type :=
| AnswerBoolean (b : bool)
| AnswerOther (truthy : bool).

(** The answer tested by [if]. *)
Definition answerTruthy (a : FeatureAnswer) : bool :=
  match a with
  | AnswerBoolean b => b
  | AnswerOther t => t
  end.

(** [answer === true] *)
Definition answerIsTrue (a : FeatureAnswer) : bool :=
  match a with
  | AnswerBoolean b => b
  | AnswerOther _ => false
  end.

(** Modelled from the spec: the plugin type declarations ([./types]) are not
    part of the sources at hand.  The [actions] adapter of a plugin has the
    capabilities the dispatcher probes, each optional.  [listActions] takes
    [{ cfg }]; [supportsButtons] and [supportsCards] are declared on [{ cfg }]
    with a boolean answer, but are handed whatever object the caller builds
    and may answer with any value; [supportsAction] takes [{ action }] and
    answers with a boolean; [handleAction] takes the context and may
    reject. *)
Record ChannelActions (Cfg Params Err Result : Type) : Type := {
  listActions : option (Cfg -> list string);
  supportsButtons : option (FeatureParams Cfg -> FeatureAnswer);
  supportsCards : option (FeatureParams Cfg -> FeatureAnswer);
  supportsAction : option (string -> bool);
  handleAction : option (ChannelMessageActionContext Params -> outcome Err Result)
}.

Arguments listActions {Cfg Params Err Result} _.
Arguments supportsButtons {Cfg Params Err Result} _.
Arguments supportsCards {Cfg Params Err Result} _.
Arguments supportsAction {Cfg Params Err Result} _.
Arguments handleAction {Cfg Params Err Result} _.

Record ChannelPlugin (Cfg Params Err Result : Type) : Type := {
  plugin_id : string;
  plugin_actions : option (ChannelActions Cfg Params Err Result)
}.

Arguments plugin_id {Cfg Params Err Result} _.
Arguments plugin_actions {Cfg Params Err Result} _.

(** What [message-actions.ts] imports from [./index]: the loaded plugins in
    registration order, and the lookup by channel id. *)
Class PluginRegistry (Cfg Params Err Result : Type) : Type := {
  listChannelPlugins : list (ChannelPlugin Cfg Params Err Result);
  getChannelPlugin : string -> option (ChannelPlugin Cfg Params Err Result)
}.

(** What a rejected dispatch carries: the error constructed at line 75, the
    [TypeError] of calling [has] on an inherited member of the table
    (line 14), or whatever a plugin's handler rejected with. *)
Inductive DispatchError (Err : Type) : Type :=
| TrustedSenderRequired (message : string)
| HasIsNotAFunction
| HandlerRejected (e : Err).

Arguments TrustedSenderRequired {Err} message.
Arguments HasIsNotAFunction {Err}.
Arguments HandlerRejected {Err} e.

(** [return await handler(ctx)] *)
Definition awaitHandler {Err Result : Type} (r : outcome Err Result)
  : outcome (DispatchError Err) (option Result) :=
  match r with
  | Returned v => Returned (Some v)
  | Threw e => Threw (HandlerRejected e)
  end.

(** A [Set] of action names in insertion order. *)
Definition setAdd (s : list string) (a : string) : list string :=
  if existsb (String.eqb a) s then s else s ++ [a].

(** The object literal of lines 6 to 10, by its own properties. *)
Definition trustedRequesterRequiredByChannel : gmap string (list string) :=
  {[ "discord" := ["timeout"; "kick"; "ban"] ]}.

(** [Boolean(actions?.has(action) && toolContext)] for
    [actions = trustedRequesterRequiredByChannel[channel]]: an inherited
    member has no [has] method, and calling it throws. *)
Definition requiresTrustedRequester {Err : Type} (channel action : string)
    (toolContext : option bool) : outcome (DispatchError Err) bool :=
  match objectGet trustedRequesterRequiredByChannel channel with
  | Own actions =>
      Returned (existsb (String.eqb action) actions && Js.truthyBool toolContext)
  | Inherited => Threw HasIsNotAFunction
  | Absent => Returned false
  end.

(** [ctx.requesterSenderId?.trim()], as tested by [!]. *)
Definition trimmedSenderTruthy (sender : option string) : bool :=
  Js.truthy (match sender with Some s => Some (Js.trim s) | None => None end).

(* ===================================================================== *)
(** ** [message-actions.ts]                                               *)
(* ===================================================================== *)

Module MessageActions.
Section Dispatcher.

Context {Cfg Params Err Result : Type}
        {registry : PluginRegistry Cfg Params Err Result}.

Local Abbreviation Ctx := (ChannelMessageActionContext Params).
Local Abbreviation Plugin := (ChannelPlugin Cfg Params Err Result).

Definition requiresTrustedRequesterSender (ctx : Ctx)
  : outcome (DispatchError Err) bool :=
  requiresTrustedRequester (ctx_channel ctx) (ctx_action ctx) (ctx_toolContext ctx).

Definition listChannelMessageActions (cfg : Cfg) : list string :=
  fold_left
    (fun actions (plugin : Plugin) =>
       match plugin_actions plugin with
       | Some a =>
           match listActions a with
           | Some list => fold_left setAdd (list cfg) actions
           | None => actions
           end
       | None => actions
       end)
    listChannelPlugins ["send"; "broadcast"].

(** [if (plugin.actions?.supportsButtons?.({ cfg })) return true] *)
Definition supportsChannelMessageButtons (cfg : Cfg) : bool :=
  existsb
    (fun plugin : Plugin =>
       match plugin_actions plugin with
       | Some a =>
           match supportsButtons a with
           | Some f => answerTruthy (f (cfgOnly cfg))
           | None => false
           end
       | None => false
       end)
    listChannelPlugins.

(** [plugin?.actions?.supportsButtons?.({ cfg: params.cfg }) === true] *)
Definition supportsChannelMessageButtonsForChannel
    (params : FeatureParams Cfg) : bool :=
  if negb (Js.truthy (params_channel params)) then false
  else
    match getChannelPlugin (Js.nullish (params_channel params) "") with
    | Some plugin =>
        match plugin_actions plugin with
        | Some a =>
            match supportsButtons a with
            | Some f => answerIsTrue (f (cfgOnly (params_cfg params)))
            | None => false
            end
        | None => false
        end
    | None => false
    end.

(** [if (plugin.actions?.supportsCards?.({ cfg })) return true] *)
Definition supportsChannelMessageCards (cfg : Cfg) : bool :=
  existsb
    (fun plugin : Plugin =>
       match plugin_actions plugin with
       | Some a =>
           match supportsCards a with
           | Some f => answerTruthy (f (cfgOnly cfg))
           | None => false
           end
       | None => false
       end)
    listChannelPlugins.

(** [plugin?.actions?.supportsCards?.({ cfg: params.cfg }) === true] *)
Definition supportsChannelMessageCardsForChannel
    (params : FeatureParams Cfg) : bool :=
  if negb (Js.truthy (params_channel params)) then false
  else
    match getChannelPlugin (Js.nullish (params_channel params) "") with
    | Some plugin =>
        match plugin_actions plugin with
        | Some a =>
            match supportsCards a with
            | Some f => answerIsTrue (f (cfgOnly (params_cfg params)))
            | None => false
            end
        | None => false
        end
    | None => false
    end.

(** [plugin?.actions?.handleAction] *)
Definition handlerOf (plugin : option Plugin)
  : option (ChannelActions Cfg Params Err Result * (Ctx -> outcome Err Result)) :=
  match plugin with
  | Some p =>
      match plugin_actions p with
      | Some a =>
          match handleAction a with
          | Some h => Some (a, h)
          | None => None
          end
      | None => None
      end
  | None => None
  end.

(** [!actions.supportsAction || actions.supportsAction({ action })] *)
Definition supported (a : ChannelActions Cfg Params Err Result)
    (action : string) : bool :=
  match supportsAction a with
  | Some f => f action
  | None => true
  end.

(** The loop of lines 90 to 105 over the remaining candidates. *)
Fixpoint dispatchFallback (ctx : Ctx) (candidates : list Plugin)
  : outcome (DispatchError Err) (option Result) :=
  match candidates with
  | [] => Returned None
  | candidate :: rest =>
      if String.eqb (plugin_id candidate) (ctx_channel ctx) then
        dispatchFallback ctx rest
      else
        match handlerOf (Some candidate) with
        | None => dispatchFallback ctx rest
        | Some (a, handle) =>
            if negb (supported a (ctx_action ctx)) then dispatchFallback ctx rest
            else awaitHandler (handle (withChannel ctx (plugin_id candidate)))
        end
  end.

Definition trustedSenderMessage (ctx : Ctx) : string :=
  "Trusted sender identity is required for " ++ ctx_channel ctx ++ ":"
    ++ ctx_action ctx ++ " in tool-driven contexts.".

(** Lines 79 to 107: the primary plugin, then the loop. *)
Definition dispatchToPlugins (ctx : Ctx)
  : outcome (DispatchError Err) (option Result) :=
  match handlerOf (getChannelPlugin (ctx_channel ctx)) with
  | Some (a, handle) =>
      if supported a (ctx_action ctx) then awaitHandler (handle ctx)
      else dispatchFallback ctx listChannelPlugins
  | None => dispatchFallback ctx listChannelPlugins
  end.

Definition dispatchChannelMessageAction (ctx : Ctx)
  : outcome (DispatchError Err) (option Result) :=
  bind (requiresTrustedRequesterSender ctx)
       (fun requires =>
          if requires && negb (trimmedSenderTruthy (ctx_requesterSenderId ctx))
          then Threw (TrustedSenderRequired (trustedSenderMessage ctx))
          else dispatchToPlugins ctx).

End Dispatcher.
End MessageActions.

(* ===================================================================== *)
(** ** The refactored dispatcher                                          *)
(* ===================================================================== *)

Module MessageActionsRefactored.
Section Dispatcher.

Context {Cfg Params Err Result : Type}
        {registry : PluginRegistry Cfg Params Err Result}.

Local Abbreviation Ctx := (ChannelMessageActionContext Params).
Local Abbreviation Plugin := (ChannelPlugin Cfg Params Err Result).
Local Abbreviation Actions := (ChannelActions Cfg Params Err Result).

Definition requiresTrustedRequesterSender (ctx : Ctx)
  : outcome (DispatchError Err) bool :=
  requiresTrustedRequester (ctx_channel ctx) (ctx_action ctx) (ctx_toolContext ctx).

Definition listChannelMessageActions (cfg : Cfg) : list string :=
  fold_left
    (fun actions (plugin : Plugin) =>
       match plugin_actions plugin with
       | Some a =>
           match listActions a with
           | Some list => fold_left setAdd (list cfg) actions
           | None => actions
           end
       | None => actions
       end)
    listChannelPlugins ["send"; "broadcast"].

(** [for (plugin of listChannelPlugins()) if (plugin.actions && check(plugin.actions)) return true] *)
Definition supportsMessageFeature (cfg : Cfg) (check : Actions -> bool) : bool :=
  existsb
    (fun plugin : Plugin =>
       match plugin_actions plugin with
       | Some a => check a
       | None => false
       end)
    listChannelPlugins.

Definition supportsMessageFeatureForChannel
    (params : FeatureParams Cfg) (check : Actions -> bool) : bool :=
  if negb (Js.truthy (params_channel params)) then false
  else
    match getChannelPlugin (Js.nullish (params_channel params) "") with
    | Some plugin =>
        match plugin_actions plugin with
        | Some a => check a
        | None => false
        end
    | None => false
    end.

(** [actions?.supportsButtons?.({ cfg }) === true] *)
Definition supportsChannelMessageButtons (cfg : Cfg) : bool :=
  supportsMessageFeature cfg
    (fun actions =>
       match supportsButtons actions with
       | Some f => answerIsTrue (f (cfgOnly cfg))
       | None => false
       end).

(** [actions.supportsButtons?.(params) === true]: the handler is called with
    the caller's [params] object, [channel] included. *)
Definition supportsChannelMessageButtonsForChannel
    (params : FeatureParams Cfg) : bool :=
  supportsMessageFeatureForChannel params
    (fun actions =>
       match supportsButtons actions with
       | Some f => answerIsTrue (f params)
       | None => false
       end).

(** [actions?.supportsCards?.({ cfg }) === true] *)
Definition supportsChannelMessageCards (cfg : Cfg) : bool :=
  supportsMessageFeature cfg
    (fun actions =>
       match supportsCards actions with
       | Some f => answerIsTrue (f (cfgOnly cfg))
       | None => false
       end).

(** [actions.supportsCards?.(params) === true] *)
Definition supportsChannelMessageCardsForChannel
    (params : FeatureParams Cfg) : bool :=
  supportsMessageFeatureForChannel params
    (fun actions =>
       match supportsCards actions with
       | Some f => answerIsTrue (f params)
       | None => false
       end).

Definition handlerOf (plugin : option Plugin)
  : option (Actions * (Ctx -> outcome Err Result)) :=
  match plugin with
  | Some p =>
      match plugin_actions p with
      | Some a =>
          match handleAction a with
          | Some h => Some (a, h)
          | None => None
          end
      | None => None
      end
  | None => None
  end.

Definition supported (a : Actions) (action : string) : bool :=
  match supportsAction a with
  | Some f => f action
  | None => true
  end.

Fixpoint dispatchFallback (ctx : Ctx) (candidates : list Plugin)
  : outcome (DispatchError Err) (option Result) :=
  match candidates with
  | [] => Returned None
  | candidate :: rest =>
      if String.eqb (plugin_id candidate) (ctx_channel ctx) then
        dispatchFallback ctx rest
      else
        match handlerOf (Some candidate) with
        | None => dispatchFallback ctx rest
        | Some (a, handle) =>
            if negb (supported a (ctx_action ctx)) then dispatchFallback ctx rest
            else awaitHandler (handle (withChannel ctx (plugin_id candidate)))
        end
  end.

Definition trustedSenderMessage (ctx : Ctx) : string :=
  "Trusted sender identity is required for " ++ ctx_channel ctx ++ ":"
    ++ ctx_action ctx ++ " in tool-driven contexts.".

Definition dispatchToPlugins (ctx : Ctx)
  : outcome (DispatchError Err) (option Result) :=
  match handlerOf (getChannelPlugin (ctx_channel ctx)) with
  | Some (a, handle) =>
      if supported a (ctx_action ctx) then awaitHandler (handle ctx)
      else dispatchFallback ctx listChannelPlugins
  | None => dispatchFallback ctx listChannelPlugins
  end.

Definition dispatchChannelMessageAction (ctx : Ctx)
  : outcome (DispatchError Err) (option Result) :=
  bind (requiresTrustedRequesterSender ctx)
       (fun requires =>
          if requires && negb (trimmedSenderTruthy (ctx_requesterSenderId ctx))
          then Threw (TrustedSenderRequired (trustedSenderMessage ctx))
          else dispatchToPlugins ctx).

End Dispatcher.
End MessageActionsRefactored.

(* ===================================================================== *)
(** ** Vocabulary of the specification                                    *)
(* ===================================================================== *)

(** The payload names a concrete channel (anything but the ["last"]
    sentinel). *)
Definition suppliesChannel (p : JobPayload) : Prop :=
  exists c, payload_channel p = Some c /\ c <> "last".

(** The payload names a recipient that is not blank. *)
Definition suppliesTo (p : JobPayload) : Prop :=
  exists t, payload_to p = Some t /\ Js.whitespaceOnly t = false.

(** A requester identity is blank when it is absent or whitespace-only. *)
Definition blankSender (sender : option string) : Prop :=
  sender = None \/ exists s, sender = Some s /\ Js.whitespaceOnly s = true.

(** The fallback chain of step 5: the origin's channel when the origin is in
    use, else the configured default, else (when the selection fails) the
    session's stored last channel, else the global default. *)
Definition fallbackChain {Err : Type} (originInUse : option string)
    (selection : outcome Err string) (lastChannel : option string)
    (globalDefault : string) : string :=
  match originInUse with
  | Some c => c
  | None =>
      match selection with
      | Returned c => c
      | Threw _ =>
          match lastChannel with
          | Some c => c
          | None => globalDefault
          end
      end
  end.

(** "Re-run step 4 with this fallback channel injected": a session resolver
    that found no channel of its own yields the injected fallback. *)
Definition honoursFallback
    (resolver : SessionTargetParams -> SessionDeliveryTarget) : Prop :=
  forall entry requested explicit allow mode f,
    Js.isEmpty f = false ->
    Js.truthy (sdt_channel (resolver
      {| stp_entry := entry; stp_requestedChannel := requested;
         stp_explicitTo := explicit; stp_fallbackChannel := None;
         stp_allowMismatchedLastTo := allow; stp_mode := None |})) = false ->
    sdt_channel (resolver
      {| stp_entry := entry; stp_requestedChannel := requested;
         stp_explicitTo := explicit; stp_fallbackChannel := Some f;
         stp_allowMismatchedLastTo := allow; stp_mode := mode |}) = Some f.

(** A plugin can perform [action]: it declares [handleAction], and its
    [supportsAction] check is absent or accepts the action. *)
Definition canPerform {Cfg Params Err Result : Type}
    (p : ChannelPlugin Cfg Params Err Result) (action : string) : bool :=
  match plugin_actions p with
  | Some a =>
      match handleAction a with
      | Some _ =>
          match supportsAction a with
          | Some f => f action
          | None => true
          end
      | None => false
      end
  | None => false
  end.

(** The plugin registered for the channel, if any, can perform [action]. *)
Definition primaryCanPerform {Cfg Params Err Result : Type}
    (p : option (ChannelPlugin Cfg Params Err Result)) (action : string) : bool :=
  match p with
  | Some q => canPerform q action
  | None => false
  end.

(** The first plugin, in registration order, that is not registered under
    [channel] and can perform [action]. *)
Definition firstFallback {Cfg Params Err Result : Type}
    (plugins : list (ChannelPlugin Cfg Params Err Result))
    (channel action : string) : option (ChannelPlugin Cfg Params Err Result) :=
  find (fun p => negb (String.eqb (plugin_id p) channel) && canPerform p action)
       plugins.

(** What the dispatch to plugin [p] with the channel rewritten resolves to. *)
Definition dispatchedTo {Cfg Params Err Result : Type}
    (p : ChannelPlugin Cfg Params Err Result)
    (ctx : ChannelMessageActionContext Params)
  : option (outcome (DispatchError Err) (option Result)) :=
  match plugin_actions p with
  | Some a =>
      match handleAction a with
      | Some handle => Some (awaitHandler (handle (withChannel ctx (plugin_id p))))
      | None => None
      end
  | None => None
  end.

(** The [resolveOutboundTarget] call the resolver makes, when it makes one:
    lines 60 to 66 on the origin short-circuit, lines 175 to 181 otherwise.
    Its [otp_to] is the recipient candidate. *)
Definition normalizerCall {Cfg Err : Type} {imports : ResolverImports Cfg Err}
    (cfg : Cfg) (agentId : string) (jobPayload : JobPayload)
    (options : option ResolveOptions) : option (OutboundTargetParams Cfg) :=
  match originShortCircuit jobPayload options with
  | Some (o, ch, t) =>
      Some {| otp_channel := ch; otp_to := t; otp_cfg := cfg;
              otp_accountId := origin_accountId o; otp_mode := Explicit |}
  | None =>
      match fallbackChannel cfg agentId jobPayload options with
      | Returned fallback =>
          match sdt_to (resolved cfg agentId jobPayload options fallback) with
          | Some candidate =>
              if Js.isEmpty candidate then None
              else
                Some {| otp_channel := resolvedChannel cfg agentId jobPayload options fallback;
                        otp_to := candidate; otp_cfg := cfg;
                        otp_accountId := resolvedAccountId cfg agentId jobPayload options fallback;
                        otp_mode := sdt_mode (resolved cfg agentId jobPayload options fallback) |}
          | None => None
          end
      | Threw _ => None
      end
  end.







(** [jobPayload] with its [to] property removed. *)
Definition withoutTo (p : JobPayload) : JobPayload :=
  {| payload_channel := payload_channel p;
     payload_to := None;
     payload_sessionKey := payload_sessionKey p |}.

(* ===================================================================== *)
(** ** A concrete environment                                             *)
(* ===================================================================== *)

(** Modelled from the spec: [resolveSessionDeliveryTarget]
    ([infra/outbound/targets]) is not part of the sources at hand.  This
    follows steps 4 and 5 of the resolver algorithm: the candidate comes from
    the entry's [last*] fields, the requested channel must match the stored
    one unless [allowMismatchedLastTo], an explicit recipient overrides the
    stored one, and a fallback channel is used when no channel was found.
    An entry that is not an own property of the store has no [last*]
    fields.  The parameters carry no thread id, so none is marked
    explicit. *)
Definition sessionDeliveryTargetModel (p : SessionTargetParams)
  : SessionDeliveryTarget :=
  let lastChannel :=
    match stp_entry p with Own e => entry_lastChannel e | _ => None end in
  let lastTo :=
    match stp_entry p with Own e => entry_lastTo e | _ => None end in
  let requested :=
    if String.eqb (stp_requestedChannel p) "last" then lastChannel
    else Some (stp_requestedChannel p) in
  let channel :=
    if Js.truthy requested then requested
    else if Js.truthy (stp_fallbackChannel p) then stp_fallbackChannel p
    else None in
  let sameChannel := Js.truthy channel && Js.strictEq channel lastChannel in
  let explicit := Js.truthy (stp_explicitTo p) in
  {| sdt_channel := channel;
     sdt_to :=
       if explicit then stp_explicitTo p
       else if Js.truthy lastTo && (sameChannel || stp_allowMismatchedLastTo p)
            then lastTo else None;
     sdt_accountId :=
       if sameChannel
       then match stp_entry p with Own e => entry_lastAccountId e | _ => None end
       else None;
     sdt_threadId :=
       if sameChannel
       then match stp_entry p with Own e => entry_lastThreadId e | _ => None end
       else None;
     sdt_threadIdExplicit := None;
     sdt_mode :=
       Js.nullish (stp_mode p) (if explicit then Explicit else Implicit);
     sdt_lastChannel := lastChannel;
     sdt_lastTo := lastTo |}.

(** A normaliser for the examples: a blank recipient is rejected, any other
    is trimmed. *)
Definition trimmingNormalizer (p : OutboundTargetParams unit)
  : OutboundTargetResolution string :=
  if Js.whitespaceOnly (otp_to p) then TargetRejected "missing target"
  else TargetOk (Js.trim (otp_to p)).

(** An environment over a given store snapshot and channel selection; the
    configuration carries nothing. *)
Definition exampleImports (snapshot : gmap string SessionEntry)
    (selection : outcome string string) : ResolverImports unit string :=
  {| DEFAULT_CHAT_CHANNEL := "whatsapp";
     sessionStoreSetting := fun _ => None;
     resolveAgentMainSessionKey := fun _ agent => "agent:" ++ agent ++ ":main";
     resolveStorePath := fun _ agent => "sessions/" ++ agent;
     loadSessionStore := fun _ => snapshot;
     resolveMessageChannelSelection := fun _ => selection;
     resolveOutboundTarget := trimmingNormalizer;
     resolveSessionDeliveryTarget := sessionDeliveryTargetModel;
     buildChannelAccountBindings := fun _ => ∅;
     normalizeAgentId := fun agent => agent |}.

Definition noPayload : JobPayload :=
  {| payload_channel := None; payload_to := None; payload_sessionKey := None |}.

Definition telegramOrigin : CronOrigin :=
  {| origin_channel := Some "telegram"; origin_to := Some "123";
     origin_accountId := None;
     origin_threadId := Some (ThreadIdString "t9") |}.

Definition feishuEntry : SessionEntry :=
  {| entry_sessionId := "s1"; entry_updatedAt := 1;
     entry_lastChannel := Some "feishu"; entry_lastTo := Some "oc_1";
     entry_lastAccountId := None;
     entry_lastThreadId := Some (ThreadIdString "t9") |}.

Definition feishuStore : gmap string SessionEntry :=
  {[ "agent:main:main" := feishuEntry ]}.

(** Modelled from the spec: the plugin registry ([./index]) is not part of
    the sources at hand.  The loaded plugins are kept in registration order
    and looked up by channel id. *)
Definition registryOf {Cfg Params Err Result : Type}
    (plugins : list (ChannelPlugin Cfg Params Err Result))
  : PluginRegistry Cfg Params Err Result :=
  {| listChannelPlugins := plugins;
     getChannelPlugin :=
       fun id => find (fun p => String.eqb (plugin_id p) id) plugins |}.

(** A handler for the examples: it reports who handled what, and where. *)
Definition reportingHandler (name : string)
    (ctx : ChannelMessageActionContext unit) : outcome string string :=
  Returned (name ++ " did " ++ ctx_action ctx ++ " on " ++ ctx_channel ctx).

(** Plugin [name] with a handler and a [supportsAction] check. *)
Definition examplePlugin (name : string) (accepts : string -> bool)
  : ChannelPlugin unit unit string string :=
  {| plugin_id := name;
     plugin_actions :=
       Some {| listActions := None; supportsButtons := None;
               supportsCards := None;
               supportsAction := Some accepts;
               handleAction := Some (reportingHandler name) |} |}.

(** A plugin without an [actions] adapter. *)
Definition passivePlugin (name : string)
  : ChannelPlugin unit unit string string :=
  {| plugin_id := name; plugin_actions := None |}.

(** [{ A: handles "ping" = false, B: handles "ping" = true }] *)
Definition pingRegistry : PluginRegistry unit unit string string :=
  registryOf [examplePlugin "A" (fun _ => false);
              examplePlugin "B" (String.eqb "ping")].

(** A Discord plugin that cannot act, next to one that handles everything. *)
Definition moderationRegistry : PluginRegistry unit unit string string :=
  registryOf [passivePlugin "discord"; examplePlugin "modbot" (fun _ => true)].

Definition exampleCtx (channel action : string) (sender : option string)
    (tool : option bool) : ChannelMessageActionContext unit :=
  {| ctx_channel := channel; ctx_action := action;
     ctx_requesterSenderId := sender; ctx_toolContext := tool;
     ctx_params := tt |}.

(** The cross-channel fallback read as a property of every dispatch: whenever
    the plugin registered for the channel cannot perform the action, the
    dispatch resolves to what the first capable other plugin answers for the
    rewritten context. *)
Definition crossChannelFallbackEverywhere {Cfg Params Err Result : Type}
    (registry : PluginRegistry Cfg Params Err Result) : Prop :=
  forall (ctx : ChannelMessageActionContext Params) before p after,
    primaryCanPerform (getChannelPlugin (ctx_channel ctx)) (ctx_action ctx) = false ->
    listChannelPlugins = (before ++ p :: after)%list ->
    (forall q, In q before ->
               plugin_id q = ctx_channel ctx
               \/ canPerform q (ctx_action ctx) = false) ->
    plugin_id p <> ctx_channel ctx ->
    canPerform p (ctx_action ctx) = true ->
    dispatchedTo p ctx = Some (MessageActions.dispatchChannelMessageAction ctx).

(** "Unsupported yields null" read as a property of every dispatch. *)
Definition unsupportedIsNullEverywhere {Cfg Params Err Result : Type}
    (registry : PluginRegistry Cfg Params Err Result) : Prop :=
  forall ctx : ChannelMessageActionContext Params,
    primaryCanPerform (getChannelPlugin (ctx_channel ctx)) (ctx_action ctx) = false ->
    (forall p, In p listChannelPlugins ->
               plugin_id p <> ctx_channel ctx ->
               canPerform p (ctx_action ctx) = false) ->
    MessageActions.dispatchChannelMessageAction ctx = Returned None.

(** The authorization gate of line 74 fires: the table holds the action
    under the channel (as an own property), the tool context is set and the
    requester identity is blank. *)
Definition gateFires {Params : Type} (ctx : ChannelMessageActionContext Params)
  : Prop :=
  (exists actions,
      trustedRequesterRequiredByChannel !! ctx_channel ctx = Some actions
      /\ In (ctx_action ctx) actions)
  /\ Js.truthyBool (ctx_toolContext ctx) = true
  /\ blankSender (ctx_requesterSenderId ctx).

(** The description of the gate read as a property of every dispatch: the
    trusted-sender error is raised exactly when the gate fires, and is not
    raised for a requester identity that is not the empty string, nor
    without a tool context. *)
Definition gateSparesNonEmptySender {Cfg Params Err Result : Type}
    (registry : PluginRegistry Cfg Params Err Result) : Prop :=
  forall ctx : ChannelMessageActionContext Params,
    ((exists message,
         MessageActions.dispatchChannelMessageAction ctx
         = Threw (TrustedSenderRequired message))
     <-> gateFires ctx)
    /\ (forall s message,
           ctx_requesterSenderId ctx = Some s ->
           s <> "" ->
           MessageActions.dispatchChannelMessageAction ctx
           <> Threw (TrustedSenderRequired message))
    /\ (forall message,
           Js.truthyBool (ctx_toolContext ctx) = false ->
           MessageActions.dispatchChannelMessageAction ctx
           <> Threw (TrustedSenderRequired message)).

(* ===================================================================== *)
(** ** Further vocabulary                                                 *)
(* ===================================================================== *)

(** [jobPayload] with its [sessionKey] property removed, or replaced. *)
Definition withoutSessionKey (p : JobPayload) : JobPayload :=
  {| payload_channel := payload_channel p;
     payload_to := payload_to p;
     payload_sessionKey := None |}.

Definition withSessionKey (p : JobPayload) (key : string) : JobPayload :=
  {| payload_channel := payload_channel p;
     payload_to := payload_to p;
     payload_sessionKey := Some key |}.

(** [jobPayload] with [to] set. *)
Definition withTo (p : JobPayload) (recipient : string) : JobPayload :=
  {| payload_channel := payload_channel p;
     payload_to := Some recipient;
     payload_sessionKey := payload_sessionKey p |}.

(** The same imports with another channel selection. *)
Definition withChannelSelection {Cfg Err : Type}
    (imports : ResolverImports Cfg Err)
    (selection : Cfg -> outcome Err string) : ResolverImports Cfg Err :=
  {| DEFAULT_CHAT_CHANNEL := @DEFAULT_CHAT_CHANNEL Cfg Err imports;
     sessionStoreSetting := @sessionStoreSetting Cfg Err imports;
     resolveAgentMainSessionKey := @resolveAgentMainSessionKey Cfg Err imports;
     resolveStorePath := @resolveStorePath Cfg Err imports;
     loadSessionStore := @loadSessionStore Cfg Err imports;
     resolveMessageChannelSelection := selection;
     resolveOutboundTarget := @resolveOutboundTarget Cfg Err imports;
     resolveSessionDeliveryTarget := @resolveSessionDeliveryTarget Cfg Err imports;
     buildChannelAccountBindings := @buildChannelAccountBindings Cfg Err imports;
     normalizeAgentId := @normalizeAgentId Cfg Err imports |}.

(** The same imports with other account bindings. *)
Definition withBindings {Cfg Err : Type}
    (imports : ResolverImports Cfg Err)
    (bindings : Cfg -> gmap string (gmap string (list string)))
  : ResolverImports Cfg Err :=
  {| DEFAULT_CHAT_CHANNEL := @DEFAULT_CHAT_CHANNEL Cfg Err imports;
     sessionStoreSetting := @sessionStoreSetting Cfg Err imports;
     resolveAgentMainSessionKey := @resolveAgentMainSessionKey Cfg Err imports;
     resolveStorePath := @resolveStorePath Cfg Err imports;
     loadSessionStore := @loadSessionStore Cfg Err imports;
     resolveMessageChannelSelection := @resolveMessageChannelSelection Cfg Err imports;
     resolveOutboundTarget := @resolveOutboundTarget Cfg Err imports;
     resolveSessionDeliveryTarget := @resolveSessionDeliveryTarget Cfg Err imports;
     buildChannelAccountBindings := bindings;
     normalizeAgentId := @normalizeAgentId Cfg Err imports |}.

(** Plugin [plugin] lists action [a] for configuration [cfg]. *)
Definition listsAction {Cfg Params Err Result : Type} (cfg : Cfg)
    (plugin : ChannelPlugin Cfg Params Err Result) (a : string) : Prop :=
  exists acts f,
    plugin_actions plugin = Some acts
    /\ listActions acts = Some f
    /\ In a (f cfg).

(** The lookup by id only ever answers with a loaded plugin. *)
Definition lookupWithinLoaded {Cfg Params Err Result : Type}
    (registry : PluginRegistry Cfg Params Err Result) : Prop :=
  forall id p, getChannelPlugin id = Some p -> In p listChannelPlugins.

(** A plugin that lists actions and answers the feature queries. *)
Definition capablePlugin (name : string) (actions : list string)
    (buttons cards : bool) : ChannelPlugin unit unit string string :=
  {| plugin_id := name;
     plugin_actions :=
       Some {| listActions := Some (fun _ => actions);
               supportsButtons := Some (fun _ => AnswerBoolean buttons);
               supportsCards := Some (fun _ => AnswerBoolean cards);
               supportsAction := Some (fun a => existsb (String.eqb a) actions);
               handleAction := Some (reportingHandler name) |} |}.

Definition featureRegistry : PluginRegistry unit unit string string :=
  registryOf [capablePlugin "feishu" ["send"; "react"; "pin"] false true;
              passivePlugin "matrix";
              capablePlugin "telegram" ["react"; "poll"] true false].

(** [f] is the [supportsButtons] or the [supportsCards] handler of
    [plugin]. *)
Definition featureHandlerOf {Cfg Params Err Result : Type}
    (plugin : ChannelPlugin Cfg Params Err Result)
    (f : FeatureParams Cfg -> FeatureAnswer) : Prop :=
  exists acts,
    plugin_actions plugin = Some acts
    /\ (supportsButtons acts = Some f \/ supportsCards acts = Some f).

(** The feature handlers of the loaded plugins answer a [{ cfg }] query with
    a boolean, as their declared type says. *)
Definition loadedAnswerBoolean {Cfg Params Err Result : Type}
    (registry : PluginRegistry Cfg Params Err Result) : Prop :=
  forall plugin f cfg,
    In plugin listChannelPlugins ->
    featureHandlerOf plugin f ->
    exists b, f (cfgOnly cfg) = AnswerBoolean b.

(** The feature handlers of the registered plugins read nothing but [cfg]
    from the object they are called with, as their declared type says. *)
Definition registeredReadOnlyCfg {Cfg Params Err Result : Type}
    (registry : PluginRegistry Cfg Params Err Result) : Prop :=
  forall id plugin f params,
    getChannelPlugin id = Some plugin ->
    featureHandlerOf plugin f ->
    f params = f (cfgOnly (params_cfg params)).

(** The refactoring read as an equivalence of every exported function on
    every registry, configuration and context. *)
Definition refactoringPreservesExports {Cfg Params Err Result : Type}
    (registry : PluginRegistry Cfg Params Err Result) : Prop :=
  (forall cfg : Cfg,
      MessageActions.listChannelMessageActions cfg
      = MessageActionsRefactored.listChannelMessageActions cfg)
  /\ (forall cfg : Cfg,
         MessageActions.supportsChannelMessageButtons cfg
         = MessageActionsRefactored.supportsChannelMessageButtons cfg)
  /\ (forall params : FeatureParams Cfg,
         MessageActions.supportsChannelMessageButtonsForChannel params
         = MessageActionsRefactored.supportsChannelMessageButtonsForChannel params)
  /\ (forall cfg : Cfg,
         MessageActions.supportsChannelMessageCards cfg
         = MessageActionsRefactored.supportsChannelMessageCards cfg)
  /\ (forall params : FeatureParams Cfg,
         MessageActions.supportsChannelMessageCardsForChannel params
         = MessageActionsRefactored.supportsChannelMessageCardsForChannel params)
  /\ (forall ctx : ChannelMessageActionContext Params,
         MessageActions.dispatchChannelMessageAction ctx
         = MessageActionsRefactored.dispatchChannelMessageAction ctx).

(** A feature handler outside its declared type: asked with a [channel] it
    answers [true], asked without one it answers with a truthy value that is
    not a boolean. *)
Definition channelAwareFeature (params : FeatureParams unit) : FeatureAnswer :=
  if Js.truthy (params_channel params) then AnswerBoolean true
  else AnswerOther true.

Definition channelAwarePlugin (name : string)
  : ChannelPlugin unit unit string string :=
  {| plugin_id := name;
     plugin_actions :=
       Some {| listActions := None;
               supportsButtons := Some channelAwareFeature;
               supportsCards := Some channelAwareFeature;
               supportsAction := None;
               handleAction := None |} |}.

Definition channelAwareRegistry : PluginRegistry unit unit string string :=
  registryOf [channelAwarePlugin "feishu"].

(** [{ cfg, channel: "feishu" }] *)
Definition feishuParams : FeatureParams unit :=
  {| params_cfg := tt; params_channel := Some "feishu" |}.

(* ===================================================================== *)
(** ** The rolling summary: one day's section                             *)
(* ===================================================================== *)

Module RollingMemory.

(** [ParsedMessage] *)
Record ParsedMessage : Type := {
  role : string;
  text : string;
  date : string
}.

Definition isLineFeed (c : ascii) : bool := N.eqb (N_of_ascii c) 10.

(** [s.replace(/\n+/g, " ")]: every maximal run of line feeds becomes one
    space.  [inRun] tells that the previous code unit was a line feed. *)
Fixpoint replaceLineFeedRuns (inRun : bool) (s : string) : string :=
  match s with
  | EmptyString => EmptyString
  | String c r =>
      if isLineFeed c then
        if inRun then replaceLineFeedRuns true r
        else String " " (replaceLineFeedRuns true r)
      else String c (replaceLineFeedRuns false r)
  end.

(** [msg.text.length > 200 ? msg.text.slice(0, 200) + "..." : msg.text] *)
Definition preview (msg : ParsedMessage) : string :=
  if Nat.ltb 200 (String.length (text msg))
  then String.substring 0 200 (text msg) ++ "..."
  else text msg.

(** [preview.replace(/\n+/g, " ").trim()] *)
Definition oneLine (msg : ParsedMessage) : string :=
  Js.trim (replaceLineFeedRuns false (preview msg)).

(** The line pushed for one message (line 385). *)
Definition bullet (msg : ParsedMessage) : string :=
  "- **" ++ role msg ++ "**: " ++ oneLine msg.

(** [messages.slice(0, 50)] *)
Definition shown (messages : list ParsedMessage) : list ParsedMessage :=
  firstn 50 messages.

(** The lines pushed for one date (lines 375 to 390): the heading, a blank
    line, a bullet per shown message, the count of omitted messages when
    there are more than fifty, and a blank line. *)
Definition daySection (day : string) (messages : list ParsedMessage)
  : list string :=
  let heading := "## " ++ day in
  let omitted :=
    "- *(" ++ pretty (List.length messages - 50) ++ " more messages omitted)*" in
  ([heading; ""]
   ++ map bullet (shown messages)
   ++ (if Nat.ltb 50 (List.length messages) then [omitted] else [])
   ++ [""])%list.



End RollingMemory.


(* ===================================================================== *)
(** ** Properties of [trim]                                               *)
(* ===================================================================== *)

Lemma isEmpty_true (s : string) : Js.isEmpty s = true <-> s = "".
Proof. destruct s; simpl; split; congruence. Qed.

Lemma isEmpty_eqb (s : string) : String.eqb s "" = Js.isEmpty s.
Proof. destruct s; reflexivity. Qed.

Lemma trimStart_whitespaceOnly (s : string) :
  Js.whitespaceOnly s = true -> Js.trimStart s = "".
Proof.
  induction s as [|c r IH]; simpl; [reflexivity|].
  destruct (Js.isWhiteSpace c); simpl; [exact IH|discriminate].
Qed.

Lemma whitespaceOnly_trimStart (s : string) :
  Js.whitespaceOnly (Js.trimStart s) = Js.whitespaceOnly s.
Proof.
  induction s as [|c r IH]; simpl; [reflexivity|].
  destruct (Js.isWhiteSpace c) eqn:Hc; simpl; [exact IH|].
  now rewrite Hc.
Qed.

Lemma trimEnd_isEmpty (s : string) :
  Js.isEmpty (Js.trimEnd s) = Js.whitespaceOnly s.
Proof.
  induction s as [|c r IH]; simpl; [reflexivity|].
  rewrite IH.
  destruct (Js.isWhiteSpace c), (Js.whitespaceOnly r); reflexivity.
Qed.

(** [s.trim() === ""] exactly when [s] is whitespace-only. *)
Lemma trim_blank (s : string) :
  String.eqb (Js.trim s) "" = Js.whitespaceOnly s.
Proof.
  unfold Js.trim.
  now rewrite isEmpty_eqb, trimEnd_isEmpty, whitespaceOnly_trimStart.
Qed.

Lemma trim_isEmpty (s : string) :
  Js.isEmpty (Js.trim s) = Js.whitespaceOnly s.
Proof. rewrite <- isEmpty_eqb. apply trim_blank. Qed.

(** The trimmed string has no white space at either end. *)
Lemma trimStart_head (s : string) (c : ascii) (r : string) :
  Js.trimStart s = String c r -> Js.isWhiteSpace c = false.
Proof.
  induction s as [|d t IH]; simpl; [discriminate|].
  destruct (Js.isWhiteSpace d) eqn:Hd; [exact IH|].
  intros [= -> ->]. exact Hd.
Qed.

Lemma trimmedSender_blank (sender : option string) :
  trimmedSenderTruthy sender = false <-> blankSender sender.
Proof.
  unfold trimmedSenderTruthy, blankSender.
  destruct sender as [s|]; simpl.
  - rewrite trim_isEmpty. split.
    + intros H. right. exists s. split; [reflexivity|].
      now destruct (Js.whitespaceOnly s).
    + intros [H|[s' [[= <-] H]]]; [discriminate|]. now rewrite H.
  - split; [now left|reflexivity].
Qed.

(* ===================================================================== *)
(** ** Properties of [resolveDeliveryTarget]                              *)
(* ===================================================================== *)

Section ResolverFacts.

Context {Cfg Err : Type} {imports : ResolverImports Cfg Err}.

Variable cfg : Cfg.
Variable agentId : string.
Variable jobPayload : JobPayload.
Variable options : option ResolveOptions.

Lemma hasExplicitChannel_spec :
  hasExplicitChannel jobPayload = true <-> suppliesChannel jobPayload.
Proof.
  unfold hasExplicitChannel, suppliesChannel.
  destruct (payload_channel jobPayload) as [c|].
  - destruct (String.eqb_spec c "last") as [->|Hne]; simpl; split.
    + discriminate.
    + intros [c' [[= <-] Hc]]. now elim Hc.
    + intros _. now exists c.
    + reflexivity.
  - split; [discriminate|]. now intros [c [[=] _]].
Qed.

Lemma hasExplicitTo_spec :
  hasExplicitTo jobPayload = true <-> suppliesTo jobPayload.
Proof.
  unfold hasExplicitTo, suppliesTo.
  destruct (payload_to jobPayload) as [t|].
  - rewrite trim_blank. split.
    + intros H. exists t. split; [reflexivity|].
      now destruct (Js.whitespaceOnly t).
    + intros [t' [[= <-] Ht]]. now rewrite Ht.
  - split; [discriminate|]. now intros [t [[=] _]].
Qed.

Lemma hasExplicitChannel_absent :
  ~ suppliesChannel jobPayload -> hasExplicitChannel jobPayload = false.
Proof.
  intros H. destruct (hasExplicitChannel jobPayload) eqn:E; [|reflexivity].
  elim H. now apply hasExplicitChannel_spec.
Qed.

Lemma hasExplicitTo_absent :
  ~ suppliesTo jobPayload -> hasExplicitTo jobPayload = false.
Proof.
  intros H. destruct (hasExplicitTo jobPayload) eqn:E; [|reflexivity].
  elim H. now apply hasExplicitTo_spec.
Qed.

(** The caught rejection is the only one: the fallback channel is always
    computed. *)
Lemma fallbackChannel_returns :
  exists fallback,
    fallbackChannel cfg agentId jobPayload options = Returned fallback.
Proof.
  unfold fallbackChannel.
  destruct (negb (Js.truthy (sdt_channel _))); [|eauto].
  destruct (useOrigin jobPayload options && Js.truthy _); [eauto|].
  destruct (resolveMessageChannelSelection cfg); simpl; eauto.
Qed.

(** The two ways the resolver returns. *)
Lemma resolveDeliveryTarget_cases :
  (exists o ch t,
      originShortCircuit jobPayload options = Some (o, ch, t)
      /\ resolveDeliveryTarget cfg agentId jobPayload options
         = Returned (routeToOrigin cfg o ch t))
  \/ (exists fallback,
        originShortCircuit jobPayload options = None
        /\ fallbackChannel cfg agentId jobPayload options = Returned fallback
        /\ resolveDeliveryTarget cfg agentId jobPayload options
           = Returned (finish cfg agentId jobPayload options fallback)).
Proof.
  unfold resolveDeliveryTarget.
  destruct (originShortCircuit jobPayload options) as [[[o ch] t]|].
  - left. now exists o, ch, t.
  - right. destruct fallbackChannel_returns as [fb Hfb].
    exists fb. rewrite Hfb. now simpl.
Qed.

Lemma originShortCircuit_inv (o : CronOrigin) (ch t : string) :
  originShortCircuit jobPayload options = Some (o, ch, t) ->
  origin options = Some o
  /\ origin_channel o = Some ch /\ origin_to o = Some t
  /\ useOrigin jobPayload options = true
  /\ Js.isEmpty ch = false /\ Js.isEmpty t = false.
Proof.
  unfold originShortCircuit.
  destruct (origin options) as [o'|]; [|discriminate].
  destruct (origin_channel o') as [ch'|] eqn:Hc; [|discriminate].
  destruct (origin_to o') as [t'|] eqn:Ht; [|discriminate].
  destruct (useOrigin jobPayload options); simpl; [|discriminate].
  destruct (Js.isEmpty ch') eqn:Hce; simpl; [discriminate|].
  destruct (Js.isEmpty t') eqn:Hte; simpl; [discriminate|].
  intros [= <- <- <-]. repeat split; assumption || reflexivity.
Qed.

(** The recipient of [routeToOrigin] and of [finish] is whatever the
    normaliser answered for the returned channel, account and mode. *)
Lemma routeToOrigin_normalized (o : CronOrigin) (ch raw t : string) :
  target_to (routeToOrigin cfg o ch raw) = Some t ->
  resolveOutboundTarget
    {| otp_channel := target_channel (routeToOrigin cfg o ch raw);
       otp_to := raw; otp_cfg := cfg;
       otp_accountId := target_accountId (routeToOrigin cfg o ch raw);
       otp_mode := target_mode (routeToOrigin cfg o ch raw) |} = TargetOk t.
Proof.
  unfold routeToOrigin; simpl.
  destruct (resolveOutboundTarget _) as [t'|e]; [|discriminate].
  now intros [= ->].
Qed.

Lemma finish_normalized (fallback : option string) (t : string) :
  let r := finish cfg agentId jobPayload options fallback in
  target_to r = Some t ->
  exists raw,
    sdt_to (resolved cfg agentId jobPayload options fallback) = Some raw
    /\ resolveOutboundTarget
         {| otp_channel := target_channel r; otp_to := raw; otp_cfg := cfg;
            otp_accountId := target_accountId r;
            otp_mode := target_mode r |} = TargetOk t.
Proof.
  unfold finish.
  destruct (sdt_to _) as [raw|]; simpl; [|discriminate].
  destruct (Js.isEmpty raw); simpl; [discriminate|].
  destruct (resolveOutboundTarget _) as [t'|e] eqn:E; [|discriminate].
  intros [= ->]. now exists raw.
Qed.

End ResolverFacts.

(** C2.  Normalisation invariant: whenever the resolver returns a recipient,
    that recipient is what [resolveOutboundTarget] answered, successfully,
    for the returned channel (and the returned account and mode). *)
Theorem normalization_invariant {Cfg Err : Type}
    {imports : ResolverImports Cfg Err}
    (cfg : Cfg) (agentId : string) (jobPayload : JobPayload)
    (options : option ResolveOptions) (r : DeliveryTarget Err) (t : string) :
  resolveDeliveryTarget cfg agentId jobPayload options = Returned r ->
  target_to r = Some t ->
  exists raw,
    resolveOutboundTarget
      {| otp_channel := target_channel r; otp_to := raw; otp_cfg := cfg;
         otp_accountId := target_accountId r;
         otp_mode := target_mode r |} = TargetOk t.
Proof.
  intros Hr Ht.
  destruct (resolveDeliveryTarget_cases cfg agentId jobPayload options)
    as [(o & ch & raw & _ & Heq)|(fb & _ & _ & Heq)];
    rewrite Heq in Hr; injection Hr as <-.
  - exists raw. now apply routeToOrigin_normalized.
  - destruct (finish_normalized cfg agentId jobPayload options fb t Ht)
      as (raw & _ & Hraw).
    now exists raw.
Qed.

Lemma normalization_invariant_witness :
  let env := exampleImports ∅ (Threw "none") in
  let options :=
    Some {| options_origin := Some telegramOrigin; options_deliveryMode := None |} in
  exists r,
    resolveDeliveryTarget (imports := env) tt "main" noPayload options = Returned r
    /\ target_to r = Some "123"
    /\ exists raw,
         trimmingNormalizer
           {| otp_channel := target_channel r; otp_to := raw; otp_cfg := tt;
              otp_accountId := target_accountId r;
              otp_mode := target_mode r |} = TargetOk "123".
Proof.
  intros env options.
  eexists. split; [reflexivity|]. split; [reflexivity|].
  apply (normalization_invariant (imports := env) tt "main" noPayload options
           _ "123"); reflexivity.
Defined.

(** The origin is in use as soon as the mode is ["origin"] (or defaulted), an
    origin with a channel or a recipient is given, and the payload overrides
    neither. *)
Lemma useOrigin_intro (jobPayload : JobPayload) (opts : ResolveOptions)
    (o : CronOrigin) :
  options_origin opts = Some o ->
  options_deliveryMode opts = None \/ options_deliveryMode opts = Some ModeOrigin ->
  ~ suppliesChannel jobPayload ->
  ~ suppliesTo jobPayload ->
  useOrigin jobPayload (Some opts)
  = Js.truthy (origin_channel o) || Js.truthy (origin_to o).
Proof.
  intros Ho Hm Hc Ht.
  unfold useOrigin, deliveryMode, origin.
  rewrite Ho, (hasExplicitChannel_absent _ Hc), (hasExplicitTo_absent _ Ht).
  destruct Hm as [-> | ->]; reflexivity.
Qed.

(** C3.  Origin short-circuit exactness: with delivery mode ["origin"] (or
    defaulted), an origin carrying a channel and a recipient, and a payload
    that supplies neither a concrete channel nor a recipient, the resolver
    returns the origin's channel, the normalised origin recipient (none, with
    the error, when the normaliser rejects it), the origin's account and
    thread ids and mode ["explicit"]; the answer depends on no import other
    than the normaliser, the session store included. *)
Theorem origin_short_circuit_exact {Cfg Err : Type}
    {imports : ResolverImports Cfg Err}
    (cfg : Cfg) (agentId : string) (jobPayload : JobPayload)
    (opts : ResolveOptions) (o : CronOrigin) (ch t : string) :
  options_origin opts = Some o ->
  options_deliveryMode opts = None \/ options_deliveryMode opts = Some ModeOrigin ->
  origin_channel o = Some ch -> ch <> "" ->
  origin_to o = Some t -> t <> "" ->
  ~ suppliesChannel jobPayload ->
  ~ suppliesTo jobPayload ->
  let docked :=
    resolveOutboundTarget
      {| otp_channel := ch; otp_to := t; otp_cfg := cfg;
         otp_accountId := origin_accountId o; otp_mode := Explicit |} in
  resolveDeliveryTarget cfg agentId jobPayload (Some opts)
  = Returned
      {| target_channel := ch;
         target_to := match docked with TargetOk t' => Some t' | TargetRejected _ => None end;
         target_accountId := origin_accountId o;
         target_threadId := origin_threadId o;
         target_mode := Explicit;
         target_error := match docked with TargetOk _ => None | TargetRejected e => Some e end |}
  /\ forall imports' : ResolverImports Cfg Err,
       @resolveOutboundTarget Cfg Err imports' = @resolveOutboundTarget Cfg Err imports ->
       resolveDeliveryTarget (imports := imports') cfg agentId jobPayload (Some opts)
       = resolveDeliveryTarget (imports := imports) cfg agentId jobPayload (Some opts).
Proof.
  intros Ho Hm Hch Hne Hto Hnt Hc Ht docked.
  assert (Hshort : originShortCircuit jobPayload (Some opts) = Some (o, ch, t)).
  { unfold originShortCircuit.
    rewrite (useOrigin_intro jobPayload opts o Ho Hm Hc Ht).
    unfold origin. rewrite Ho, Hch, Hto. simpl.
    destruct ch; [now elim Hne|]. destruct t; [now elim Hnt|]. reflexivity. }
  split.
  - unfold resolveDeliveryTarget. rewrite Hshort. reflexivity.
  - intros imports' Hsame.
    unfold resolveDeliveryTarget. rewrite Hshort.
    unfold routeToOrigin. now rewrite Hsame.
Qed.

Lemma origin_short_circuit_exact_witness :
  let env := exampleImports feishuStore (Returned "discord") in
  let opts :=
    {| options_origin := Some telegramOrigin; options_deliveryMode := None |} in
  resolveDeliveryTarget (imports := env) tt "main" noPayload (Some opts)
  = Returned
      {| target_channel := "telegram"; target_to := Some "123";
         target_accountId := None;
         target_threadId := Some (ThreadIdString "t9");
         target_mode := Explicit; target_error := None |}.
Proof.
  intros env opts.
  refine (proj1 (origin_short_circuit_exact (imports := env) tt "main" noPayload
                   opts telegramOrigin "telegram" "123" eq_refl (or_introl eq_refl)
                   eq_refl _ eq_refl _ _ _)).
  - discriminate.
  - discriminate.
  - intros [c [Hc _]]. discriminate Hc.
  - intros [t [Ht _]]. discriminate Ht.
Defined.

(** C7.  Resolution never throws on normalisation rejection: the resolver
    always returns a target.  When it calls the normaliser, the target has
    the channel, account and mode of the call; if the normaliser rejects the
    candidate, the target has no recipient and carries the normaliser's
    error.  When there is no candidate (hence no call), the target is the
    partial one: the resolved channel, account, guarded thread id and mode,
    no recipient and no error. *)
Theorem resolution_never_throws {Cfg Err : Type}
    {imports : ResolverImports Cfg Err}
    (cfg : Cfg) (agentId : string) (jobPayload : JobPayload)
    (options : option ResolveOptions) :
  exists r,
    resolveDeliveryTarget cfg agentId jobPayload options = Returned r
    /\ match normalizerCall cfg agentId jobPayload options with
       | Some call =>
           otp_channel call = target_channel r
           /\ otp_accountId call = target_accountId r
           /\ otp_mode call = target_mode r
           /\ match resolveOutboundTarget call with
              | TargetRejected e => target_to r = None /\ target_error r = Some e
              | TargetOk t => target_to r = Some t /\ target_error r = None
              end
       | None =>
           exists fallback,
             fallbackChannel cfg agentId jobPayload options = Returned fallback
             /\ r = {| target_channel :=
                         resolvedChannel cfg agentId jobPayload options fallback;
                       target_to := None;
                       target_accountId :=
                         resolvedAccountId cfg agentId jobPayload options fallback;
                       target_threadId :=
                         resolvedThreadId
                           (resolved cfg agentId jobPayload options fallback);
                       target_mode :=
                         sdt_mode (resolved cfg agentId jobPayload options fallback);
                       target_error := None |}
       end.
Proof.
  destruct (resolveDeliveryTarget_cases cfg agentId jobPayload options)
    as [(o & ch & raw & Hshort & Heq)|(fb & Hnone & Hfb & Heq)];
    rewrite Heq; eexists; (split; [reflexivity|]);
    unfold normalizerCall.
  - rewrite Hshort. unfold routeToOrigin; simpl.
    refine (conj eq_refl (conj eq_refl (conj eq_refl _))).
    destruct (resolveOutboundTarget _); split; reflexivity.
  - rewrite Hnone, Hfb. unfold finish.
    destruct (sdt_to _) as [candidate|]; [|exists fb; split; reflexivity].
    destruct (Js.isEmpty candidate); [exists fb; split; reflexivity|].
    simpl. refine (conj eq_refl (conj eq_refl (conj eq_refl _))).
    destruct (resolveOutboundTarget _); split; reflexivity.
Qed.

(** A rejected candidate, run: a blank recipient stored in the session. *)
Lemma resolution_never_throws_witness :
  let blankEntry :=
    {| entry_sessionId := "s2"; entry_updatedAt := 2;
       entry_lastChannel := Some "feishu"; entry_lastTo := Some " ";
       entry_lastAccountId := None; entry_lastThreadId := None |} in
  let env := exampleImports {[ "agent:main:main" := blankEntry ]} (Threw "none") in
  exists r,
    resolveDeliveryTarget (imports := env) tt "main" noPayload None = Returned r
    /\ target_to r = None /\ target_error r = Some "missing target".
Proof.
  intros blankEntry env.
  destruct (resolution_never_throws (imports := env) tt "main" noPayload None)
    as (r & Hr & Hcall).
  exists r. split; [exact Hr|]. exact (proj2 (proj2 (proj2 Hcall))).
Defined.

(** A whitespace-only [to] and an omitted [to] give the same effective
    request. *)
Lemma blank_to_effective_request (jobPayload : JobPayload)
    (options : option ResolveOptions) (s : string) :
  payload_to jobPayload = Some s ->
  Js.whitespaceOnly s = true ->
  hasExplicitTo jobPayload = false
  /\ useOrigin jobPayload options = useOrigin (withoutTo jobPayload) options
  /\ requestedChannel jobPayload options = requestedChannel (withoutTo jobPayload) options
  /\ explicitTo jobPayload options = explicitTo (withoutTo jobPayload) options.
Proof.
  intros Hto Hws.
  assert (H1 : hasExplicitTo jobPayload = false).
  { unfold hasExplicitTo. now rewrite Hto, trim_blank, Hws. }
  assert (H2 : useOrigin jobPayload options = useOrigin (withoutTo jobPayload) options).
  { unfold useOrigin. now rewrite H1. }
  split; [exact H1|]. split; [exact H2|].
  unfold requestedChannel, explicitTo.
  rewrite H1, <- H2. split; reflexivity.
Qed.

(** C10.  A whitespace-only recipient override is treated as absent: it is
    not an explicit recipient, and the resolver returns, and asks the
    normaliser, exactly what it does for the payload without [to]. *)
Theorem blank_to_is_absent {Cfg Err : Type}
    {imports : ResolverImports Cfg Err}
    (cfg : Cfg) (agentId : string) (jobPayload : JobPayload)
    (options : option ResolveOptions) (s : string) :
  payload_to jobPayload = Some s ->
  Js.whitespaceOnly s = true ->
  hasExplicitTo jobPayload = false
  /\ originShortCircuit jobPayload options
     = originShortCircuit (withoutTo jobPayload) options
  /\ explicitTo jobPayload options = explicitTo (withoutTo jobPayload) options
  /\ normalizerCall cfg agentId jobPayload options
     = normalizerCall cfg agentId (withoutTo jobPayload) options
  /\ resolveDeliveryTarget cfg agentId jobPayload options
     = resolveDeliveryTarget cfg agentId (withoutTo jobPayload) options.
Proof.
  intros Hto Hws.
  destruct (blank_to_effective_request jobPayload options s Hto Hws)
    as (H1 & H2 & H3 & H4).
  assert (Hshort : originShortCircuit jobPayload options
                   = originShortCircuit (withoutTo jobPayload) options).
  { unfold originShortCircuit. now rewrite H2. }
  assert (Hprelim : preliminary cfg agentId jobPayload options
                    = preliminary cfg agentId (withoutTo jobPayload) options).
  { unfold preliminary, allowMismatchedLastTo. now rewrite H3, H4. }
  assert (Hfb : fallbackChannel cfg agentId jobPayload options
                = fallbackChannel cfg agentId (withoutTo jobPayload) options).
  { unfold fallbackChannel. now rewrite Hprelim, H2. }
  assert (Hres : forall fb, resolved cfg agentId jobPayload options fb
                 = resolved cfg agentId (withoutTo jobPayload) options fb).
  { intros fb. unfold resolved, allowMismatchedLastTo.
    now rewrite Hprelim, H3, H4. }
  assert (Hchan : forall fb, resolvedChannel cfg agentId jobPayload options fb
                  = resolvedChannel cfg agentId (withoutTo jobPayload) options fb).
  { intros fb. unfold resolvedChannel. now rewrite Hres. }
  assert (Hacc : forall fb, resolvedAccountId cfg agentId jobPayload options fb
                 = resolvedAccountId cfg agentId (withoutTo jobPayload) options fb).
  { intros fb. unfold resolvedAccountId. now rewrite Hres, Hchan. }
  assert (Hfin : forall fb, finish cfg agentId jobPayload options fb
                 = finish cfg agentId (withoutTo jobPayload) options fb).
  { intros fb. unfold finish. now rewrite Hres, Hchan, Hacc. }
  repeat split; try assumption.
  - unfold normalizerCall. rewrite <- Hshort, <- Hfb.
    destruct (originShortCircuit jobPayload options) as [[[o ch] t]|];
      [reflexivity|].
    destruct (fallbackChannel cfg agentId jobPayload options) as [fb|];
      [|reflexivity].
    now rewrite <- Hres, <- Hchan, <- Hacc.
  - unfold resolveDeliveryTarget. rewrite <- Hshort, <- Hfb.
    destruct (originShortCircuit jobPayload options) as [[[o ch] t]|];
      [reflexivity|].
    destruct (fallbackChannel cfg agentId jobPayload options) as [fb|];
      simpl; [|reflexivity].
    now rewrite <- Hfin.
Qed.

(** A blank [to] does not block the origin short-circuit. *)
Lemma blank_to_is_absent_witness :
  let env := exampleImports feishuStore (Threw "none") in
  let payload :=
    {| payload_channel := None; payload_to := Some "   ";
       payload_sessionKey := None |} in
  let options :=
    Some {| options_origin := Some telegramOrigin; options_deliveryMode := None |} in
  resolveDeliveryTarget (imports := env) tt "main" payload options
  = Returned
      {| target_channel := "telegram"; target_to := Some "123";
         target_accountId := None;
         target_threadId := Some (ThreadIdString "t9");
         target_mode := Explicit; target_error := None |}.
Proof.
  intros env payload options.
  refine (eq_trans
            (proj2 (proj2 (proj2 (proj2
               (blank_to_is_absent (imports := env) tt "main" payload options
                  "   " eq_refl eq_refl))))) _).
  reflexivity.
Defined.



Lemma finish_threadId {Cfg Err : Type} {imports : ResolverImports Cfg Err}
    (cfg : Cfg) (agentId : string) (jobPayload : JobPayload)
    (options : option ResolveOptions) (fallback : option string) :
  target_threadId (finish cfg agentId jobPayload options fallback)
  = resolvedThreadId (resolved cfg agentId jobPayload options fallback).
Proof.
  unfold finish.
  destruct (sdt_to _) as [c|]; [|reflexivity].
  destruct (Js.isEmpty c); reflexivity.
Qed.







Lemma truthy_false_cases (o : option string) :
  Js.truthy o = false -> o = None \/ o = Some "".
Proof.
  destruct o as [[|c s]|]; simpl; intros H; auto; discriminate.
Qed.

(** The modelled session resolver uses an injected fallback when it found no
    channel of its own. *)
Lemma sessionDeliveryTargetModel_honoursFallback :
  honoursFallback sessionDeliveryTargetModel.
Proof.
  intros entry requested explicit allow mode f Hf.
  unfold sessionDeliveryTargetModel; simpl.
  destruct (Js.truthy (if String.eqb requested "last" then _ else _)) eqn:Hreq.
  - intros H. rewrite Hreq in H. discriminate.
  - intros _. now rewrite Hf.
Qed.

(** The fallback computed at lines 108 to 121 is the chain of step 5. *)
Lemma fallbackChannel_chain {Cfg Err : Type}
    {imports : ResolverImports Cfg Err}
    (cfg : Cfg) (agentId : string) (jobPayload : JobPayload)
    (options : option ResolveOptions) :
  Js.truthy (sdt_channel (preliminary cfg agentId jobPayload options)) = false ->
  fallbackChannel cfg agentId jobPayload options
  = Returned
      (Some (fallbackChain
               (if useOrigin jobPayload options && Js.truthy (originChannel options)
                then originChannel options else None)
               (resolveMessageChannelSelection cfg)
               (sdt_lastChannel (preliminary cfg agentId jobPayload options))
               DEFAULT_CHAT_CHANNEL)).
Proof.
  intros Hp. unfold fallbackChannel. rewrite Hp. simpl.
  destruct (useOrigin jobPayload options && Js.truthy (originChannel options)) eqn:Hu.
  - apply andb_prop in Hu as [_ Ht].
    destruct (originChannel options); [reflexivity|discriminate].
  - unfold fallbackChain.
    destruct (resolveMessageChannelSelection cfg); simpl; [reflexivity|].
    destruct (sdt_lastChannel _); reflexivity.
Qed.

(** C6.  Fallback channel chain order: when the preliminary session
    resolution yields no channel, the fallback is the origin's channel if the
    origin is in use, else the configured default of the channel selection,
    else (the selection failing) the session's stored last channel, else the
    global default; with a session resolver that honours an injected
    fallback, that is the result's channel.  In particular, with no origin
    and a configured default ["discord"], the result's channel is
    ["discord"]. *)
Theorem fallback_chain_order {Cfg Err : Type}
    {imports : ResolverImports Cfg Err}
    (cfg : Cfg) (agentId : string) (jobPayload : JobPayload)
    (options : option ResolveOptions) :
  honoursFallback resolveSessionDeliveryTarget ->
  Js.truthy (sdt_channel (preliminary cfg agentId jobPayload options)) = false ->
  let chain :=
    fallbackChain
      (if useOrigin jobPayload options && Js.truthy (originChannel options)
       then originChannel options else None)
      (resolveMessageChannelSelection cfg)
      (sdt_lastChannel (preliminary cfg agentId jobPayload options))
      DEFAULT_CHAT_CHANNEL in
  fallbackChannel cfg agentId jobPayload options = Returned (Some chain)
  /\ exists r,
       resolveDeliveryTarget cfg agentId jobPayload options = Returned r
       /\ target_channel r = chain
       /\ (origin options = None ->
           resolveMessageChannelSelection cfg = Returned "discord" ->
           target_channel r = "discord").
Proof.
  intros Hhon Hp chain.
  pose proof (fallbackChannel_chain cfg agentId jobPayload options Hp) as Hfb.
  fold chain in Hfb. split; [exact Hfb|].
  assert (Hchan : exists r,
             resolveDeliveryTarget cfg agentId jobPayload options = Returned r
             /\ target_channel r = chain).
  { destruct (resolveDeliveryTarget_cases cfg agentId jobPayload options)
      as [(o & ch & raw & Hshort & Heq)|(fb & Hnone & Hfb' & Heq)];
      rewrite Heq; eexists; (split; [reflexivity|]).
    - apply originShortCircuit_inv in Hshort
        as (Ho & Hch & _ & Hu & Hne & _).
      unfold chain, originChannel. rewrite Ho, Hch, Hu. simpl.
      rewrite Hne. reflexivity.
    - rewrite Hfb in Hfb'. injection Hfb' as <-.
      assert (Hc : target_channel (finish cfg agentId jobPayload options (Some chain))
                   = resolvedChannel cfg agentId jobPayload options (Some chain)).
      { unfold finish. destruct (sdt_to _) as [c|]; [|reflexivity].
        destruct (Js.isEmpty c); reflexivity. }
      rewrite Hc. unfold resolvedChannel, resolved. simpl.
      destruct (Js.isEmpty chain) eqn:He; simpl.
      + destruct (truthy_false_cases _ Hp) as [-> | ->]; simpl.
        * reflexivity.
        * apply isEmpty_true in He. now rewrite He.
      + unfold preliminary in Hp.
        now rewrite (Hhon _ _ _ _ (Some (sdt_mode (preliminary cfg agentId jobPayload options)))
                       chain He Hp). }
  destruct Hchan as (r & Hr & Hc). exists r.
  split; [exact Hr|]. split; [exact Hc|].
  intros Ho Hsel. rewrite Hc. unfold chain, originChannel.
  rewrite Ho, Hsel. rewrite andb_false_r. reflexivity.
Qed.

(** No origin, no session entry, configured default ["discord"]. *)
Lemma fallback_chain_order_witness :
  let env := exampleImports ∅ (Returned "discord") in
  exists r,
    resolveDeliveryTarget (imports := env) tt "main" noPayload None = Returned r
    /\ target_channel r = "discord".
Proof.
  intros env.
  destruct (fallback_chain_order (imports := env) tt "main" noPayload None
              sessionDeliveryTargetModel_honoursFallback eq_refl)
    as (_ & r & Hr & _ & Hdiscord).
  exists r. split; [exact Hr|]. apply Hdiscord; reflexivity.
Defined.

(* ===================================================================== *)
(** ** Properties of the dispatcher                                       *)
(* ===================================================================== *)

Section DispatcherFacts.

Context {Cfg Params Err Result : Type}
        {registry : PluginRegistry Cfg Params Err Result}.

Local Abbreviation Ctx := (ChannelMessageActionContext Params).
Local Abbreviation Plugin := (ChannelPlugin Cfg Params Err Result).

Lemma existsb_eqb_In (a : string) (l : list string) :
  existsb (String.eqb a) l = true <-> In a l.
Proof.
  rewrite existsb_exists. split.
  - intros [x [Hin Heq]]. apply String.eqb_eq in Heq. now subst.
  - intros Hin. exists a. split; [exact Hin|apply String.eqb_refl].
Qed.

(** The table has one own property. *)
Lemma table_own (channel : string) (actions : list string) :
  trustedRequesterRequiredByChannel !! channel = Some actions
  <-> channel = "discord" /\ actions = ["timeout"; "kick"; "ban"].
Proof.
  unfold trustedRequesterRequiredByChannel.
  rewrite lookup_singleton_Some. split; intros [H1 H2]; auto.
Qed.

Lemma table_lookup (channel : string) :
  objectGet trustedRequesterRequiredByChannel channel
  = if String.eqb channel "discord" then Own ["timeout"; "kick"; "ban"]
    else if inheritedKey channel then Inherited else Absent.
Proof.
  unfold objectGet, trustedRequesterRequiredByChannel.
  destruct (String.eqb_spec channel "discord") as [-> | Hne].
  - now rewrite lookup_singleton_eq.
  - rewrite lookup_singleton_ne; [reflexivity|congruence].
Qed.

Lemma gateFires_own (ctx : Ctx) :
  gateFires ctx -> inheritedKey (ctx_channel ctx) = false.
Proof.
  intros [(actions & Hown & _) _].
  apply table_own in Hown as [-> _]. reflexivity.
Qed.

(** An inherited member has no [has]: line 14 throws. *)
Lemma requiresTrusted_inherited (ctx : Ctx) :
  inheritedKey (ctx_channel ctx) = true ->
  MessageActions.requiresTrustedRequesterSender (Err := Err) ctx = Threw HasIsNotAFunction.
Proof.
  intros Hk. unfold MessageActions.requiresTrustedRequesterSender,
    requiresTrustedRequester.
  rewrite table_lookup, Hk.
  destruct (String.eqb_spec (ctx_channel ctx) "discord") as [Heq | _];
    [|reflexivity].
  rewrite Heq in Hk. discriminate Hk.
Qed.

(** Otherwise the test of line 74 is the gate. *)
Lemma gate_test (ctx : Ctx) :
  inheritedKey (ctx_channel ctx) = false ->
  exists requires,
    MessageActions.requiresTrustedRequesterSender (Err := Err) ctx = Returned requires
    /\ (requires && negb (trimmedSenderTruthy (ctx_requesterSenderId ctx)) = true
        <-> gateFires ctx).
Proof.
  intros Hk. unfold MessageActions.requiresTrustedRequesterSender,
    requiresTrustedRequester, gateFires.
  rewrite table_lookup, Hk.
  destruct (String.eqb_spec (ctx_channel ctx) "discord") as [Heq | Hne].
  - eexists. split; [reflexivity|].
    rewrite !andb_true_iff, negb_true_iff, existsb_eqb_In, trimmedSender_blank.
    split.
    + intros [[Hin Htool] Hblank]. split; [|now split].
      exists ["timeout"; "kick"; "ban"]. split; [|exact Hin].
      now apply table_own.
    + intros [(actions & Hown & Hin) [Htool Hblank]].
      apply table_own in Hown as [_ ->]. auto.
  - exists false. split; [reflexivity|]. simpl. split; [discriminate|].
    intros [(actions & Hown & _) _]. apply table_own in Hown as [Heq _].
    now elim Hne.
Qed.

Lemma awaitHandler_not_gate (r : outcome Err Result) (message : string) :
  awaitHandler r <> Threw (TrustedSenderRequired message).
Proof. destruct r; discriminate. Qed.

Lemma awaitHandler_not_type_error (r : outcome Err Result) :
  awaitHandler r <> Threw HasIsNotAFunction.
Proof. destruct r; discriminate. Qed.

Lemma dispatchFallback_cons (ctx : Ctx) (candidate : Plugin)
    (rest : list Plugin) :
  MessageActions.dispatchFallback ctx (candidate :: rest)
  = if String.eqb (plugin_id candidate) (ctx_channel ctx) then
      MessageActions.dispatchFallback ctx rest
    else
      match MessageActions.handlerOf (Some candidate) with
      | None => MessageActions.dispatchFallback ctx rest
      | Some (a, handle) =>
          if negb (MessageActions.supported a (ctx_action ctx))
          then MessageActions.dispatchFallback ctx rest
          else awaitHandler (handle (withChannel ctx (plugin_id candidate)))
      end.
Proof. reflexivity. Qed.

(** No plugin's rejection is mistaken for the gate's error. *)
Lemma dispatchFallback_not_gate (ctx : Ctx) (candidates : list Plugin)
    (message : string) :
  MessageActions.dispatchFallback ctx candidates
  <> Threw (TrustedSenderRequired message).
Proof.
  induction candidates as [|candidate rest IH]; [discriminate|].
  rewrite dispatchFallback_cons.
  destruct (String.eqb _ _); [exact IH|].
  destruct (MessageActions.handlerOf (Some candidate)) as [[a handle]|];
    [|exact IH].
  destruct (negb _); [exact IH|apply awaitHandler_not_gate].
Qed.

Lemma dispatchFallback_not_type_error (ctx : Ctx) (candidates : list Plugin) :
  MessageActions.dispatchFallback ctx candidates <> Threw HasIsNotAFunction.
Proof.
  induction candidates as [|candidate rest IH]; [discriminate|].
  rewrite dispatchFallback_cons.
  destruct (String.eqb _ _); [exact IH|].
  destruct (MessageActions.handlerOf (Some candidate)) as [[a handle]|];
    [|exact IH].
  destruct (negb _); [exact IH|apply awaitHandler_not_type_error].
Qed.

Lemma handlerOf_canPerform (p : Plugin) (action : string) :
  match MessageActions.handlerOf (Some p) with
  | Some (a, handle) =>
      plugin_actions p = Some a /\ handleAction a = Some handle
      /\ canPerform p action = MessageActions.supported a action
  | None => canPerform p action = false
  end.
Proof.
  unfold MessageActions.handlerOf, canPerform, MessageActions.supported.
  destruct (plugin_actions p) as [a|]; [|reflexivity].
  destruct (handleAction a) as [handle|] eqn:Hh; [|reflexivity].
  split; [reflexivity|]. split; [exact Hh|reflexivity].
Qed.

(** The loop dispatches to the first capable plugin registered under another
    id, and resolves to [null] when there is none. *)
Lemma dispatchFallback_first (ctx : Ctx) (candidates : list Plugin) :
  match firstFallback candidates (ctx_channel ctx) (ctx_action ctx) with
  | Some p =>
      dispatchedTo p ctx = Some (MessageActions.dispatchFallback ctx candidates)
  | None => MessageActions.dispatchFallback ctx candidates = Returned None
  end.
Proof.
  unfold firstFallback.
  induction candidates as [|candidate rest IH]; [reflexivity|].
  rewrite dispatchFallback_cons. cbn [find].
  destruct (String.eqb (plugin_id candidate) (ctx_channel ctx)); cbn [negb andb];
    [exact IH|].
  pose proof (handlerOf_canPerform candidate (ctx_action ctx)) as Hh.
  destruct (MessageActions.handlerOf (Some candidate)) as [[a handle]|].
  - destruct Hh as (Ha & Hhandle & ->).
    destruct (MessageActions.supported a (ctx_action ctx)); simpl; [|exact IH].
    unfold dispatchedTo. now rewrite Ha, Hhandle.
  - rewrite Hh. exact IH.
Qed.

Lemma firstFallback_none (candidates : list Plugin) (channel action : string) :
  (forall p, In p candidates -> plugin_id p <> channel ->
             canPerform p action = false) ->
  firstFallback candidates channel action = None.
Proof.
  intros H. unfold firstFallback.
  destruct (find _ candidates) as [p|] eqn:E; [|reflexivity].
  apply find_some in E as [Hin Hp].
  apply andb_prop in Hp as [Hid Hcan].
  rewrite (H p Hin) in Hcan; [discriminate|].
  intros Heq. rewrite Heq, String.eqb_refl in Hid. discriminate.
Qed.

(** The three ways line 74 ends. *)
Lemma dispatch_inherited (ctx : Ctx) :
  inheritedKey (ctx_channel ctx) = true ->
  MessageActions.dispatchChannelMessageAction ctx = Threw HasIsNotAFunction.
Proof.
  intros Hk. unfold MessageActions.dispatchChannelMessageAction.
  now rewrite (requiresTrusted_inherited ctx Hk).
Qed.

Lemma dispatch_gate (ctx : Ctx) :
  gateFires ctx ->
  MessageActions.dispatchChannelMessageAction ctx
  = Threw (TrustedSenderRequired
             ("Trusted sender identity is required for " ++ ctx_channel ctx
              ++ ":" ++ ctx_action ctx ++ " in tool-driven contexts.")).
Proof.
  intros Hgate.
  destruct (gate_test ctx (gateFires_own ctx Hgate)) as (requires & Hreq & Hiff).
  apply Hiff in Hgate.
  unfold MessageActions.dispatchChannelMessageAction.
  rewrite Hreq. simpl. now rewrite Hgate.
Qed.

Lemma dispatch_open (ctx : Ctx) :
  inheritedKey (ctx_channel ctx) = false ->
  ~ gateFires ctx ->
  MessageActions.dispatchChannelMessageAction ctx
  = MessageActions.dispatchToPlugins ctx.
Proof.
  intros Hk Hgate.
  destruct (gate_test ctx Hk) as (requires & Hreq & Hiff).
  unfold MessageActions.dispatchChannelMessageAction.
  rewrite Hreq. simpl.
  destruct (requires && negb (trimmedSenderTruthy (ctx_requesterSenderId ctx)));
    [|reflexivity].
  elim Hgate. now apply Hiff.
Qed.

Lemma dispatchToPlugins_not_gate (ctx : Ctx) (message : string) :
  MessageActions.dispatchToPlugins ctx <> Threw (TrustedSenderRequired message).
Proof.
  unfold MessageActions.dispatchToPlugins.
  destruct (MessageActions.handlerOf _) as [[a handle]|];
    [|apply dispatchFallback_not_gate].
  destruct (MessageActions.supported a (ctx_action ctx));
    [apply awaitHandler_not_gate|apply dispatchFallback_not_gate].
Qed.

Lemma dispatchToPlugins_not_type_error (ctx : Ctx) :
  MessageActions.dispatchToPlugins ctx <> Threw HasIsNotAFunction.
Proof.
  unfold MessageActions.dispatchToPlugins.
  destruct (MessageActions.handlerOf _) as [[a handle]|];
    [|apply dispatchFallback_not_type_error].
  destruct (MessageActions.supported a (ctx_action ctx));
    [apply awaitHandler_not_type_error|apply dispatchFallback_not_type_error].
Qed.

(** The call of [has] fails exactly on the inherited members. *)
Lemma dispatch_type_error (ctx : Ctx) :
  MessageActions.dispatchChannelMessageAction ctx = Threw HasIsNotAFunction
  <-> inheritedKey (ctx_channel ctx) = true.
Proof.
  split; [|apply dispatch_inherited].
  intros H. destruct (inheritedKey (ctx_channel ctx)) eqn:Hk; [reflexivity|].
  exfalso. destruct (gate_test ctx Hk) as (requires & Hreq & _).
  revert H. unfold MessageActions.dispatchChannelMessageAction.
  rewrite Hreq. simpl.
  destruct (requires && negb (trimmedSenderTruthy (ctx_requesterSenderId ctx)));
    [discriminate|apply dispatchToPlugins_not_type_error].
Qed.

(** Where line 74 neither throws nor rejects, the gate does not fire. *)
Lemma gate_decided (ctx : Ctx) :
  inheritedKey (ctx_channel ctx) = false ->
  gateFires ctx \/ ~ gateFires ctx.
Proof.
  intros Hk. destruct (gate_test ctx Hk) as (requires & _ & Hiff).
  destruct (requires && negb (trimmedSenderTruthy (ctx_requesterSenderId ctx)));
    [left; now apply Hiff|right].
  intros Hg. apply Hiff in Hg. discriminate Hg.
Qed.

(** Past line 74, a primary that cannot perform the action hands over to the
    loop. *)
Lemma dispatch_past_gate (ctx : Ctx) :
  inheritedKey (ctx_channel ctx) = false ->
  ~ gateFires ctx ->
  primaryCanPerform (getChannelPlugin (ctx_channel ctx)) (ctx_action ctx) = false ->
  MessageActions.dispatchChannelMessageAction ctx
  = MessageActions.dispatchFallback ctx listChannelPlugins.
Proof.
  intros Hk Hgate Hprimary.
  rewrite (dispatch_open ctx Hk Hgate).
  unfold MessageActions.dispatchToPlugins.
  destruct (getChannelPlugin (ctx_channel ctx)) as [p|]; [|reflexivity].
  simpl in Hprimary.
  pose proof (handlerOf_canPerform p (ctx_action ctx)) as Hh.
  destruct (MessageActions.handlerOf (Some p)) as [[a handle]|]; [|reflexivity].
  destruct Hh as (_ & _ & Hcan). rewrite <- Hcan, Hprimary. reflexivity.
Qed.

End DispatcherFacts.

Lemma firstFallback_split {Cfg Params Err Result : Type}
    (before : list (ChannelPlugin Cfg Params Err Result))
    (p : ChannelPlugin Cfg Params Err Result)
    (after : list (ChannelPlugin Cfg Params Err Result))
    (channel action : string) :
  (forall q, In q before ->
             plugin_id q = channel \/ canPerform q action = false) ->
  plugin_id p <> channel ->
  canPerform p action = true ->
  firstFallback (before ++ p :: after)%list channel action = Some p.
Proof.
  intros Hbefore Hid Hcan. unfold firstFallback.
  induction before as [|q before IH]; simpl.
  - apply String.eqb_neq in Hid. now rewrite Hid, Hcan.
  - destruct (Hbefore q (or_introl eq_refl)) as [-> | Hq].
    + rewrite String.eqb_refl. simpl.
      apply IH. intros q' Hq'. apply Hbefore. now right.
    + rewrite Hq, andb_false_r.
      apply IH. intros q' Hq'. apply Hbefore. now right.
Qed.

(** C4 (as amended).  Authorization gate: the dispatch rejects with the
    trusted-sender error exactly when the action is in the table for the
    context's channel, the tool context is set and the requester identity is
    blank (absent or whitespace-only).  The table holds ["timeout"], ["kick"]
    and ["ban"] for ["discord"] and has no other entry of its own.  With a
    requester identity that is not blank, or without a tool context, that
    error is never raised. *)
Theorem authorization_gate {Cfg Params Err Result : Type}
    {registry : PluginRegistry Cfg Params Err Result}
    (ctx : ChannelMessageActionContext Params) :
  trustedRequesterRequiredByChannel !! "discord" = Some ["timeout"; "kick"; "ban"]
  /\ (forall channel actions,
         trustedRequesterRequiredByChannel !! channel = Some actions ->
         channel = "discord")
  /\ ((exists message,
          MessageActions.dispatchChannelMessageAction ctx
          = Threw (TrustedSenderRequired message))
      <-> gateFires ctx)
  /\ (forall s message,
         ctx_requesterSenderId ctx = Some s ->
         Js.whitespaceOnly s = false ->
         MessageActions.dispatchChannelMessageAction ctx
         <> Threw (TrustedSenderRequired message))
  /\ (forall message,
         Js.truthyBool (ctx_toolContext ctx) = false ->
         MessageActions.dispatchChannelMessageAction ctx
         <> Threw (TrustedSenderRequired message)).
Proof.
  assert (Hiff : (exists message,
                     MessageActions.dispatchChannelMessageAction ctx
                     = Threw (TrustedSenderRequired message))
                 <-> gateFires ctx).
  { split.
    - intros [message H].
      destruct (inheritedKey (ctx_channel ctx)) eqn:Hk.
      + rewrite (dispatch_inherited ctx Hk) in H. discriminate H.
      + destruct (gate_test (Err := Err) ctx Hk) as (requires & _ & Htest).
        destruct (requires && negb (trimmedSenderTruthy (ctx_requesterSenderId ctx)))
          eqn:Hfires; [now apply Htest|].
        assert (Hopen : ~ gateFires ctx).
        { intros Hg. apply Htest in Hg. discriminate Hg. }
        rewrite (dispatch_open ctx Hk Hopen) in H.
        now apply dispatchToPlugins_not_gate in H.
    - intros Hg. rewrite (dispatch_gate ctx Hg). eauto. }
  split; [now apply table_own|]. split.
  { intros channel actions Hown. now apply table_own in Hown. }
  split; [exact Hiff|]. split.
  - intros s message Hs Hws H.
    assert (Hg : gateFires ctx) by (apply Hiff; eauto).
    destruct Hg as (_ & _ & [Hnone | (s' & Hs' & Hblank)]); congruence.
  - intros message Htool H.
    assert (Hg : gateFires ctx) by (apply Hiff; eauto).
    destruct Hg as (_ & Ht & _). congruence.
Qed.

Lemma gateFires_example (sender : option string) :
  blankSender sender ->
  gateFires (exampleCtx "discord" "kick" sender (Some true)).
Proof.
  intros Hblank. split; [|split].
  - exists ["timeout"; "kick"; "ban"]. split; [now apply table_own|].
    simpl. tauto.
  - reflexivity.
  - exact Hblank.
Qed.

(** [{channel: "discord", action: "kick", toolContext: true,
    requesterSenderId: ""}] is rejected. *)
Lemma authorization_gate_witness :
  exists message,
    MessageActions.dispatchChannelMessageAction (registry := moderationRegistry)
      (exampleCtx "discord" "kick" (Some "") (Some true))
    = Threw (TrustedSenderRequired message).
Proof.
  apply (proj2 (proj1 (proj2 (proj2
           (authorization_gate (registry := moderationRegistry)
              (exampleCtx "discord" "kick" (Some "") (Some true))))))).
  apply gateFires_example. right. exists "". split; reflexivity.
Defined.

(** C4, as stated, fails for a requester identity that is not empty but
    blank: [{channel: "discord", action: "kick", toolContext: true,
    requesterSenderId: " "}] is rejected with the trusted-sender error. *)
Lemma blank_sender_is_rejected :
  ~ gateSparesNonEmptySender moderationRegistry.
Proof.
  intros H.
  destruct (H (exampleCtx "discord" "kick" (Some " ") (Some true)))
    as (_ & Hspares & _).
  assert (Hne : " " <> "") by discriminate.
  eapply (Hspares " " _ eq_refl Hne).
  apply dispatch_gate, gateFires_example.
  right. exists " ". split; reflexivity.
Qed.

(** C5 (as amended).  Cross-channel fallback: when the gate does not fire,
    the channel is not the name of a member that the table inherits, and the
    plugin registered for the channel cannot perform the action, the
    dispatch goes to the first plugin in registration order that is
    registered under another id, declares a handler and whose
    [supportsAction] check is absent or accepts the action; it resolves to
    that handler's answer for the context with [channel] rewritten to the
    plugin's id. *)
Theorem cross_channel_fallback {Cfg Params Err Result : Type}
    {registry : PluginRegistry Cfg Params Err Result}
    (ctx : ChannelMessageActionContext Params)
    (before : list (ChannelPlugin Cfg Params Err Result))
    (p : ChannelPlugin Cfg Params Err Result)
    (after : list (ChannelPlugin Cfg Params Err Result)) :
  ~ gateFires ctx ->
  inheritedKey (ctx_channel ctx) = false ->
  primaryCanPerform (getChannelPlugin (ctx_channel ctx)) (ctx_action ctx) = false ->
  listChannelPlugins = (before ++ p :: after)%list ->
  (forall q, In q before ->
             plugin_id q = ctx_channel ctx
             \/ canPerform q (ctx_action ctx) = false) ->
  plugin_id p <> ctx_channel ctx ->
  canPerform p (ctx_action ctx) = true ->
  exists a handle,
    plugin_actions p = Some a
    /\ handleAction a = Some handle
    /\ MessageActions.dispatchChannelMessageAction ctx
       = awaitHandler (handle (withChannel ctx (plugin_id p))).
Proof.
  intros Hgate Hkey Hprimary Hlist Hbefore Hid Hcan.
  rewrite (dispatch_past_gate ctx Hkey Hgate Hprimary).
  pose proof (dispatchFallback_first ctx listChannelPlugins) as Hfirst.
  assert (Hff : firstFallback listChannelPlugins (ctx_channel ctx) (ctx_action ctx)
                = Some p).
  { rewrite Hlist. now apply firstFallback_split. }
  rewrite Hff in Hfirst.
  unfold dispatchedTo in Hfirst.
  destruct (plugin_actions p) as [a|]; [|discriminate].
  destruct (handleAction a) as [handle|] eqn:Hhandle; [|discriminate].
  exists a, handle. split; [reflexivity|]. split; [exact Hhandle|].
  now injection Hfirst as <-.
Qed.

Lemma not_gateFires_off_table {Params : Type}
    (ctx : ChannelMessageActionContext Params) :
  trustedRequesterRequiredByChannel !! ctx_channel ctx = None ->
  ~ gateFires ctx.
Proof. intros Hnone [[l [Hl _]] _]. congruence. Qed.

Lemma table_lookup_other (channel : string) :
  channel <> "discord" ->
  trustedRequesterRequiredByChannel !! channel = None.
Proof.
  intros Hne. unfold trustedRequesterRequiredByChannel.
  apply lookup_singleton_ne. congruence.
Qed.

(** [{A: handles "ping" = false, B: handles "ping" = true}], dispatching
    [{channel: "A", action: "ping"}]. *)
Lemma cross_channel_fallback_witness :
  MessageActions.dispatchChannelMessageAction (registry := pingRegistry)
    (exampleCtx "A" "ping" None None)
  = Returned (Some "B did ping on B").
Proof.
  destruct (cross_channel_fallback (registry := pingRegistry)
              (exampleCtx "A" "ping" None None)
              [examplePlugin "A" (fun _ => false)]
              (examplePlugin "B" (String.eqb "ping")) [])
    as (a & handle & Ha & Hh & Heq).
  - now apply not_gateFires_off_table, table_lookup_other.
  - reflexivity.
  - reflexivity.
  - reflexivity.
  - intros q [<- | []]. now left.
  - discriminate.
  - reflexivity.
  - injection Ha as <-. injection Hh as <-. exact Heq.
Defined.

(** C5, as stated, fails where the gate fires: the Discord plugin cannot
    perform ["kick"], another plugin can, and the dispatch rejects instead of
    reaching it. *)
Lemma cross_channel_fallback_blocked_by_gate :
  ~ crossChannelFallbackEverywhere moderationRegistry.
Proof.
  intros H.
  specialize (H (exampleCtx "discord" "kick" None (Some true))
                [passivePlugin "discord"]
                (examplePlugin "modbot" (fun _ => true)) []
                eq_refl eq_refl).
  assert (Hbefore : forall q, In q [passivePlugin "discord"] ->
            plugin_id q = "discord" \/ canPerform q "kick" = false).
  { intros q [<- | []]. now left. }
  specialize (H Hbefore).
  assert (Hid : "modbot" <> "discord") by discriminate.
  specialize (H Hid eq_refl).
  rewrite (dispatch_gate (registry := moderationRegistry)) in H
    by (apply gateFires_example; now left).
  discriminate H.
Qed.

(** C8 (as amended).  Unsupported action yields [null]: when the gate does
    not fire, the channel is not the name of a member that the table
    inherits, and neither the plugin registered for the channel nor any
    plugin registered under another id can perform the action, the dispatch
    resolves to [null]. *)
Theorem unsupported_action_is_null {Cfg Params Err Result : Type}
    {registry : PluginRegistry Cfg Params Err Result}
    (ctx : ChannelMessageActionContext Params) :
  ~ gateFires ctx ->
  inheritedKey (ctx_channel ctx) = false ->
  primaryCanPerform (getChannelPlugin (ctx_channel ctx)) (ctx_action ctx) = false ->
  (forall p, In p listChannelPlugins ->
             plugin_id p <> ctx_channel ctx ->
             canPerform p (ctx_action ctx) = false) ->
  MessageActions.dispatchChannelMessageAction ctx = Returned None.
Proof.
  intros Hgate Hkey Hprimary Hnone.
  rewrite (dispatch_past_gate ctx Hkey Hgate Hprimary).
  pose proof (dispatchFallback_first ctx listChannelPlugins) as Hfirst.
  now rewrite (firstFallback_none _ _ _ Hnone) in Hfirst.
Qed.

Lemma unsupported_action_is_null_witness :
  MessageActions.dispatchChannelMessageAction (registry := pingRegistry)
    (exampleCtx "A" "pong" None None)
  = Returned None.
Proof.
  apply (unsupported_action_is_null (registry := pingRegistry)
           (exampleCtx "A" "pong" None None)).
  - now apply not_gateFires_off_table, table_lookup_other.
  - reflexivity.
  - reflexivity.
  - intros p [<- | [<- | []]] Hid; [now elim Hid|reflexivity].
Defined.

(** C8, as stated, fails where the gate fires: no plugin can perform
    ["kick"], and the dispatch rejects instead of resolving to [null]. *)
Lemma unsupported_action_blocked_by_gate :
  ~ unsupportedIsNullEverywhere
      (registryOf [passivePlugin "discord"]).
Proof.
  intros H.
  specialize (H (exampleCtx "discord" "kick" None (Some true)) eq_refl).
  assert (Hnone : forall p, In p [passivePlugin "discord"] ->
            plugin_id p <> "discord" -> canPerform p "kick" = false).
  { intros p [<- | []] _. reflexivity. }
  specialize (H Hnone).
  rewrite (dispatch_gate (registry := registryOf [passivePlugin "discord"])) in H
    by (apply gateFires_example; now left).
  discriminate H.
Qed.

(* ===================================================================== *)
(** ** The refactored dispatcher against the original                     *)
(* ===================================================================== *)

Section Refactoring.

Context {Cfg Params Err Result : Type}
        {registry : PluginRegistry Cfg Params Err Result}.

Local Abbreviation Plugin := (ChannelPlugin Cfg Params Err Result).
Local Abbreviation Actions := (ChannelActions Cfg Params Err Result).

Lemma dispatchFallback_same (ctx : ChannelMessageActionContext Params)
    (candidates : list Plugin) :
  MessageActions.dispatchFallback ctx candidates
  = MessageActionsRefactored.dispatchFallback ctx candidates.
Proof.
  induction candidates as [|candidate rest IH]; simpl; [reflexivity|].
  now rewrite IH.
Qed.

Lemma dispatchToPlugins_same (ctx : ChannelMessageActionContext Params) :
  MessageActions.dispatchToPlugins ctx
  = MessageActionsRefactored.dispatchToPlugins ctx.
Proof.
  unfold MessageActions.dispatchToPlugins,
    MessageActionsRefactored.dispatchToPlugins.
  change (MessageActionsRefactored.handlerOf (getChannelPlugin (ctx_channel ctx)))
    with (MessageActions.handlerOf (getChannelPlugin (ctx_channel ctx))).
  destruct (MessageActions.handlerOf _) as [[a handle]|];
    [|apply dispatchFallback_same].
  change (MessageActionsRefactored.supported a (ctx_action ctx))
    with (MessageActions.supported a (ctx_action ctx)).
  destruct (MessageActions.supported a (ctx_action ctx));
    [reflexivity|apply dispatchFallback_same].
Qed.

Lemma dispatch_same (ctx : ChannelMessageActionContext Params) :
  MessageActions.dispatchChannelMessageAction ctx
  = MessageActionsRefactored.dispatchChannelMessageAction ctx.
Proof.
  unfold MessageActions.dispatchChannelMessageAction,
    MessageActionsRefactored.dispatchChannelMessageAction.
  change (MessageActionsRefactored.requiresTrustedRequesterSender ctx)
    with (MessageActions.requiresTrustedRequesterSender (Err := Err) ctx).
  destruct (MessageActions.requiresTrustedRequesterSender ctx) as [requires|e];
    [|reflexivity].
  simpl. now rewrite dispatchToPlugins_same.
Qed.

(** A truthiness test and a [=== true] test agree on a boolean answer. *)
Lemma feature_check_agrees (feature : Actions -> option (FeatureParams Cfg -> FeatureAnswer))
    (cfg : Cfg) (plugins : list Plugin) :
  (forall plugin a f,
      In plugin plugins ->
      plugin_actions plugin = Some a ->
      feature a = Some f ->
      exists b, f (cfgOnly cfg) = AnswerBoolean b) ->
  existsb
    (fun plugin : Plugin =>
       match plugin_actions plugin with
       | Some a =>
           match feature a with
           | Some f => answerTruthy (f (cfgOnly cfg))
           | None => false
           end
       | None => false
       end) plugins
  = existsb
      (fun plugin : Plugin =>
         match plugin_actions plugin with
         | Some a =>
             match feature a with
             | Some f => answerIsTrue (f (cfgOnly cfg))
             | None => false
             end
         | None => false
         end) plugins.
Proof.
  induction plugins as [|plugin rest IH]; intros Hbool; simpl; [reflexivity|].
  rewrite IH by (intros q a f Hq; apply Hbool; now right). f_equal.
  destruct (plugin_actions plugin) as [a|] eqn:Ha; [|reflexivity].
  destruct (feature a) as [f|] eqn:Hf; [|reflexivity].
  destruct (Hbool plugin a f (or_introl eq_refl) Ha Hf) as [b ->].
  reflexivity.
Qed.

(** The per-channel queries agree where the handler gives the same answer to
    [params] and to [{ cfg: params.cfg }]. *)
Lemma feature_for_channel_agrees
    (feature : Actions -> option (FeatureParams Cfg -> FeatureAnswer))
    (params : FeatureParams Cfg) :
  (forall id plugin a f,
      getChannelPlugin id = Some plugin ->
      plugin_actions plugin = Some a ->
      feature a = Some f ->
      f params = f (cfgOnly (params_cfg params))) ->
  (if negb (Js.truthy (params_channel params)) then false
   else
     match getChannelPlugin (Js.nullish (params_channel params) "") with
     | Some plugin =>
         match plugin_actions plugin with
         | Some a =>
             match feature a with
             | Some f => answerIsTrue (f (cfgOnly (params_cfg params)))
             | None => false
             end
         | None => false
         end
     | None => false
     end)
  = MessageActionsRefactored.supportsMessageFeatureForChannel params
      (fun actions =>
         match feature actions with
         | Some f => answerIsTrue (f params)
         | None => false
         end).
Proof.
  intros Hsame. unfold MessageActionsRefactored.supportsMessageFeatureForChannel.
  destruct (negb (Js.truthy (params_channel params))); [reflexivity|].
  destruct (getChannelPlugin _) as [plugin|] eqn:Hp; [|reflexivity].
  destruct (plugin_actions plugin) as [a|] eqn:Ha; [|reflexivity].
  destruct (feature a) as [f|] eqn:Hf; [|reflexivity].
  now rewrite (Hsame _ plugin a f Hp Ha Hf).
Qed.

End Refactoring.

(** C9 (as amended).  The refactored dispatcher against the original:
    [listChannelMessageActions] and [dispatchChannelMessageAction] return, and
    reject, alike for every registry, configuration and context;
    [supportsChannelMessageButtons] and [supportsChannelMessageCards] return
    alike where the feature handlers of the loaded plugins answer a
    [{ cfg }] query with a boolean; the two [...ForChannel] queries return
    alike where the feature handlers of the registered plugins read nothing
    but [cfg] from their argument. *)
Theorem refactored_dispatcher_equivalent {Cfg Params Err Result : Type}
    {registry : PluginRegistry Cfg Params Err Result} :
  (forall cfg : Cfg,
      MessageActions.listChannelMessageActions cfg
      = MessageActionsRefactored.listChannelMessageActions cfg)
  /\ (forall ctx : ChannelMessageActionContext Params,
         MessageActions.dispatchChannelMessageAction ctx
         = MessageActionsRefactored.dispatchChannelMessageAction ctx)
  /\ (loadedAnswerBoolean registry ->
      forall cfg : Cfg,
        MessageActions.supportsChannelMessageButtons cfg
        = MessageActionsRefactored.supportsChannelMessageButtons cfg
        /\ MessageActions.supportsChannelMessageCards cfg
           = MessageActionsRefactored.supportsChannelMessageCards cfg)
  /\ (registeredReadOnlyCfg registry ->
      forall params : FeatureParams Cfg,
        MessageActions.supportsChannelMessageButtonsForChannel params
        = MessageActionsRefactored.supportsChannelMessageButtonsForChannel params
        /\ MessageActions.supportsChannelMessageCardsForChannel params
           = MessageActionsRefactored.supportsChannelMessageCardsForChannel params).
Proof.
  refine (conj _ (conj _ (conj _ _))).
  - reflexivity.
  - apply dispatch_same.
  - intros Hbool cfg. split.
    + apply (feature_check_agrees supportsButtons).
      intros plugin a f Hin Ha Hf. apply (Hbool plugin f cfg Hin).
      exists a. split; [exact Ha|now left].
    + apply (feature_check_agrees supportsCards).
      intros plugin a f Hin Ha Hf. apply (Hbool plugin f cfg Hin).
      exists a. split; [exact Ha|now right].
  - intros Hcfg params. split.
    + apply (feature_for_channel_agrees supportsButtons).
      intros id plugin a f Hp Ha Hf. apply (Hcfg id plugin f params Hp).
      exists a. split; [exact Ha|now left].
    + apply (feature_for_channel_agrees supportsCards).
      intros id plugin a f Hp Ha Hf. apply (Hcfg id plugin f params Hp).
      exists a. split; [exact Ha|now right].
Qed.

Lemma capablePlugin_handlers (name : string) (actions : list string)
    (buttons cards : bool) (f : FeatureParams unit -> FeatureAnswer) :
  featureHandlerOf (capablePlugin name actions buttons cards) f ->
  f = (fun _ => AnswerBoolean buttons) \/ f = (fun _ => AnswerBoolean cards).
Proof.
  intros (acts & Hacts & Hf). injection Hacts as <-. simpl in Hf.
  destruct Hf as [Hf | Hf]; injection Hf as <-; [now left|now right].
Qed.

Lemma featureRegistry_handlers (plugin : ChannelPlugin unit unit string string)
    (f : FeatureParams unit -> FeatureAnswer) :
  In plugin (listChannelPlugins (PluginRegistry := featureRegistry)) ->
  featureHandlerOf plugin f ->
  exists b, f = (fun _ => AnswerBoolean b).
Proof.
  intros [<- | [<- | [<- | []]]] Hf.
  - apply capablePlugin_handlers in Hf as [-> | ->]; eauto.
  - destruct Hf as (acts & Hacts & _). discriminate Hacts.
  - apply capablePlugin_handlers in Hf as [-> | ->]; eauto.
Qed.

Lemma registryOf_lookup_In {Cfg Params Err Result : Type}
    (plugins : list (ChannelPlugin Cfg Params Err Result)) (id : string)
    (p : ChannelPlugin Cfg Params Err Result) :
  getChannelPlugin (PluginRegistry := registryOf plugins) id = Some p ->
  In p plugins.
Proof. intros H. now apply find_some in H. Qed.

(** On the telegram plugin, whose handlers are constant booleans, the two
    variants give the same answers. *)
Lemma refactored_dispatcher_equivalent_witness :
  (MessageActions.supportsChannelMessageButtons (registry := featureRegistry) tt
   = MessageActionsRefactored.supportsChannelMessageButtons
       (registry := featureRegistry) tt
   /\ MessageActions.supportsChannelMessageCards (registry := featureRegistry) tt
      = MessageActionsRefactored.supportsChannelMessageCards
          (registry := featureRegistry) tt)
  /\ (MessageActions.supportsChannelMessageButtonsForChannel
        (registry := featureRegistry)
        {| params_cfg := tt; params_channel := Some "telegram" |}
      = MessageActionsRefactored.supportsChannelMessageButtonsForChannel
          (registry := featureRegistry)
          {| params_cfg := tt; params_channel := Some "telegram" |}
      /\ MessageActions.supportsChannelMessageCardsForChannel
           (registry := featureRegistry)
           {| params_cfg := tt; params_channel := Some "telegram" |}
         = MessageActionsRefactored.supportsChannelMessageCardsForChannel
             (registry := featureRegistry)
             {| params_cfg := tt; params_channel := Some "telegram" |}).
Proof.
  destruct (refactored_dispatcher_equivalent (registry := featureRegistry))
    as (_ & _ & Hglobal & Hchannel).
  split.
  - apply Hglobal. intros plugin f cfg Hin Hf.
    destruct (featureRegistry_handlers plugin f Hin Hf) as [b ->]. eauto.
  - apply Hchannel. intros id plugin f params Hp Hf.
    apply registryOf_lookup_In in Hp.
    destruct (featureRegistry_handlers plugin f Hp Hf) as [b ->]. reflexivity.
Defined.

(** C9, as stated, fails for a feature handler that reads [channel] from its
    argument and answers a [{ cfg }] query with a truthy value that is not
    [true]: the global queries answer [true] in [message-actions.ts] and
    [false] in the refactored variant, the per-channel queries the other way
    round. *)
Lemma refactoring_changes_feature_queries :
  ~ refactoringPreservesExports channelAwareRegistry
  /\ MessageActions.supportsChannelMessageButtons
       (registry := channelAwareRegistry) tt = true
  /\ MessageActionsRefactored.supportsChannelMessageButtons
       (registry := channelAwareRegistry) tt = false
  /\ MessageActions.supportsChannelMessageButtonsForChannel
       (registry := channelAwareRegistry) feishuParams = false
  /\ MessageActionsRefactored.supportsChannelMessageButtonsForChannel
       (registry := channelAwareRegistry) feishuParams = true
  /\ MessageActions.supportsChannelMessageCards
       (registry := channelAwareRegistry) tt = true
  /\ MessageActionsRefactored.supportsChannelMessageCards
       (registry := channelAwareRegistry) tt = false
  /\ MessageActions.supportsChannelMessageCardsForChannel
       (registry := channelAwareRegistry) feishuParams = false
  /\ MessageActionsRefactored.supportsChannelMessageCardsForChannel
       (registry := channelAwareRegistry) feishuParams = true.
Proof.
  split; [|repeat split].
  intros (_ & _ & Hchannel & _).
  specialize (Hchannel feishuParams). discriminate Hchannel.
Qed.

(* ===================================================================== *)
(** ** The scenarios of the specification, run                            *)
(* ===================================================================== *)

(** Thread carry-over: the stored thread id follows the stored recipient. *)
Example scenario_thread_carry_over :
  resolveDeliveryTarget (imports := exampleImports feishuStore (Threw "none"))
    tt "main"
    {| payload_channel := Some "last"; payload_to := None;
       payload_sessionKey := None |} None
  = Returned
      {| target_channel := "feishu"; target_to := Some "oc_1";
         target_accountId := None;
         target_threadId := Some (ThreadIdString "t9");
         target_mode := Implicit; target_error := None |}.
Proof. reflexivity. Qed.

(** No destination: an empty store, no origin, no explicit recipient and no
    configured default. *)
Example scenario_no_destination :
  resolveDeliveryTarget (imports := exampleImports ∅ (Threw "none"))
    tt "main" noPayload None
  = Returned
      {| target_channel := "whatsapp"; target_to := None;
         target_accountId := None; target_threadId := None;
         target_mode := Implicit; target_error := None |}.
Proof. reflexivity. Qed.

(** An explicit recipient on the stored channel is normalised (trimmed). *)
Example scenario_explicit_recipient :
  resolveDeliveryTarget (imports := exampleImports feishuStore (Threw "none"))
    tt "main"
    {| payload_channel := Some "feishu"; payload_to := Some " oc_2 ";
       payload_sessionKey := None |} None
  = Returned
      {| target_channel := "feishu"; target_to := Some "oc_2";
         target_accountId := None; target_threadId := None;
         target_mode := Explicit; target_error := None |}.
Proof. reflexivity. Qed.

(** The gate lets a call with a requester identity through. *)
Example scenario_trusted_requester :
  MessageActions.dispatchChannelMessageAction (registry := moderationRegistry)
    (exampleCtx "discord" "kick" (Some "u1") (Some true))
  = Returned (Some "modbot did kick on modbot").
Proof. reflexivity. Qed.

Example scenario_trim :
  Js.trim "  a b  " = "a b" /\ Js.trim "   " = "" /\ Js.trim "x" = "x".
Proof. repeat split. Qed.

(* ===================================================================== *)
(** ** The capability queries                                             *)
(* ===================================================================== *)

Lemma setAdd_In (s : list string) (a x : string) :
  In x (setAdd s a) <-> In x s \/ x = a.
Proof.
  unfold setAdd. destruct (existsb (String.eqb a) s) eqn:E.
  - apply existsb_eqb_In in E. split; [tauto|].
    intros [H | ->]; assumption.
  - rewrite in_app_iff. simpl. split.
    + intros [H | [-> | []]]; [now left|now right].
    + intros [H | ->]; [now left|right; now left].
Qed.

Lemma setAdd_NoDup (s : list string) (a : string) :
  List.NoDup s -> List.NoDup (setAdd s a).
Proof.
  intros Hs. unfold setAdd. destruct (existsb (String.eqb a) s) eqn:E; [exact Hs|].
  assert (Hnot : ~ In a s).
  { intros Hin. apply existsb_eqb_In in Hin. congruence. }
  clear E. induction s as [|x s IH]; simpl.
  - constructor; [intros []|constructor].
  - inversion Hs as [|? ? Hx Hs']; subst. constructor.
    + rewrite in_app_iff. simpl. intros [H | [-> | []]]; [now apply Hx|].
      apply Hnot. now left.
    + apply IH; [exact Hs'|]. intros Hin. apply Hnot. now right.
Qed.

Lemma setAdd_extends (s : list string) (a : string) :
  exists tail, setAdd s a = (s ++ tail)%list.
Proof.
  unfold setAdd. destruct (existsb (String.eqb a) s).
  - exists []. now rewrite app_nil_r.
  - now exists [a].
Qed.

(** Adding a batch of names to the set. *)
Lemma addAll_facts (batch s : list string) :
  (forall x, In x (fold_left setAdd batch s) <-> In x s \/ In x batch)
  /\ (List.NoDup s -> List.NoDup (fold_left setAdd batch s))
  /\ exists tail, fold_left setAdd batch s = (s ++ tail)%list.
Proof.
  revert s. induction batch as [|a batch IH]; intros s; simpl.
  - split; [intros x; tauto|]. split; [auto|].
    exists []. now rewrite app_nil_r.
  - destruct (IH (setAdd s a)) as (Hin & Hnd & tail & Htail).
    split; [|split].
    + intros x. rewrite Hin, setAdd_In. intuition auto.
    + intros Hs. apply Hnd. now apply setAdd_NoDup.
    + destruct (setAdd_extends s a) as [tail' Htail'].
      exists (tail' ++ tail)%list. now rewrite Htail, Htail', app_assoc.
Qed.

Section CapabilityQueries.

Context {Cfg Params Err Result : Type}
        {registry : PluginRegistry Cfg Params Err Result}.

Local Abbreviation Plugin := (ChannelPlugin Cfg Params Err Result).

(** The loop of lines 19 to 27 over any plugins, from any initial set. *)
Lemma collectActions_facts (cfg : Cfg) (plugins : list Plugin)
    (init : list string) :
  let collected :=
    fold_left
      (fun actions (plugin : Plugin) =>
         match plugin_actions plugin with
         | Some a =>
             match listActions a with
             | Some list => fold_left setAdd (list cfg) actions
             | None => actions
             end
         | None => actions
         end) plugins init in
  (forall x, In x collected
             <-> In x init \/ exists plugin, In plugin plugins /\ listsAction cfg plugin x)
  /\ (List.NoDup init -> List.NoDup collected)
  /\ exists tail, collected = (init ++ tail)%list.
Proof.
  revert init. induction plugins as [|plugin rest IH]; intros init; simpl.
  - split; [|split].
    + intros x. split; [tauto|]. intros [H | (p & [] & _)]. exact H.
    + auto.
    + exists []. now rewrite app_nil_r.
  - destruct (plugin_actions plugin) as [acts|] eqn:Hacts;
      [destruct (listActions acts) as [f|] eqn:Hf|].
    + destruct (IH (fold_left setAdd (f cfg) init)) as (Hin & Hnd & tail & Htail).
      destruct (addAll_facts (f cfg) init) as (Hin' & Hnd' & tail' & Htail').
      split; [|split].
      * intros x. rewrite Hin, Hin'. split.
        -- intros [[H | H] | (p & Hp & Hl)]; [now left| |].
           ++ right. exists plugin. split; [now left|]. now exists acts, f.
           ++ right. exists p. split; [now right|exact Hl].
        -- intros [H | (p & [<- | Hp] & Hl)]; [now left; left| |].
           ++ destruct Hl as (acts' & f' & Ha & Hf' & Hx).
              rewrite Hacts in Ha. injection Ha as <-.
              rewrite Hf in Hf'. injection Hf' as <-.
              left. now right.
           ++ right. now exists p.
      * intros Hi. now apply Hnd, Hnd'.
      * exists (tail' ++ tail)%list. now rewrite Htail, Htail', app_assoc.
    + destruct (IH init) as (Hin & Hnd & tail & Htail).
      split; [|split; [exact Hnd|now exists tail]].
      intros x. rewrite Hin. split.
      * intros [H | (p & Hp & Hl)]; [now left|]. right. exists p. split; [now right|exact Hl].
      * intros [H | (p & [<- | Hp] & Hl)]; [now left| |].
        -- destruct Hl as (acts' & f' & Ha & Hf' & _). congruence.
        -- right. now exists p.
    + destruct (IH init) as (Hin & Hnd & tail & Htail).
      split; [|split; [exact Hnd|now exists tail]].
      intros x. rewrite Hin. split.
      * intros [H | (p & Hp & Hl)]; [now left|]. right. exists p. split; [now right|exact Hl].
      * intros [H | (p & [<- | Hp] & Hl)]; [now left| |].
        -- destruct Hl as (acts' & f' & Ha & _). congruence.
        -- right. now exists p.
Qed.

End CapabilityQueries.

(** X1.  [listChannelMessageActions] answers with ["send"] and ["broadcast"]
    first, in that order, whatever the plugins list. *)
Theorem listChannelMessageActions_builtins_first {Cfg Params Err Result : Type}
    {registry : PluginRegistry Cfg Params Err Result} (cfg : Cfg) :
  exists rest,
    MessageActions.listChannelMessageActions cfg = "send" :: "broadcast" :: rest.
Proof.
  destruct (collectActions_facts cfg listChannelPlugins ["send"; "broadcast"])
    as (_ & _ & tail & Htail).
  exists tail. exact Htail.
Qed.

(** X2.  [listChannelMessageActions] never answers with the same action
    twice, even when several plugins list it or a plugin lists a built-in. *)
Theorem listChannelMessageActions_no_duplicates {Cfg Params Err Result : Type}
    {registry : PluginRegistry Cfg Params Err Result} (cfg : Cfg) :
  List.NoDup (MessageActions.listChannelMessageActions cfg).
Proof.
  destruct (collectActions_facts cfg listChannelPlugins ["send"; "broadcast"])
    as (_ & Hnd & _).
  apply Hnd. constructor.
  - simpl. intros [H | []]. discriminate H.
  - constructor; [intros []|constructor].
Qed.

(** X3.  An action is in the answer of [listChannelMessageActions] exactly
    when it is a built-in or some loaded plugin lists it: nothing is lost and
    nothing is invented. *)
Theorem listChannelMessageActions_membership {Cfg Params Err Result : Type}
    {registry : PluginRegistry Cfg Params Err Result} (cfg : Cfg) (a : string) :
  In a (MessageActions.listChannelMessageActions cfg)
  <-> a = "send" \/ a = "broadcast"
      \/ exists plugin, In plugin listChannelPlugins /\ listsAction cfg plugin a.
Proof.
  destruct (collectActions_facts cfg listChannelPlugins ["send"; "broadcast"])
    as (Hin & _ & _).
  unfold MessageActions.listChannelMessageActions. rewrite Hin. simpl.
  split.
  - intros [[<- | [<- | []]] | H]; auto.
  - intros [-> | [-> | H]]; auto.
Qed.

Example listChannelMessageActions_run :
  MessageActions.listChannelMessageActions (registry := featureRegistry) tt
  = ["send"; "broadcast"; "react"; "pin"; "poll"].
Proof. reflexivity. Qed.

(** X4.  When the lookup by id only answers with loaded plugins, a channel
    that supports buttons (cards) makes the global query answer true as
    well: the per-channel queries never claim more than the global ones. *)
Theorem feature_for_channel_implies_global {Cfg Params Err Result : Type}
    {registry : PluginRegistry Cfg Params Err Result}
    (params : FeatureParams Cfg) :
  lookupWithinLoaded registry ->
  (MessageActions.supportsChannelMessageButtonsForChannel params = true ->
   MessageActions.supportsChannelMessageButtons (params_cfg params) = true)
  /\ (MessageActions.supportsChannelMessageCardsForChannel params = true ->
      MessageActions.supportsChannelMessageCards (params_cfg params) = true).
Proof.
  intros Hloaded.
  unfold MessageActions.supportsChannelMessageButtonsForChannel,
    MessageActions.supportsChannelMessageCardsForChannel,
    MessageActions.supportsChannelMessageButtons,
    MessageActions.supportsChannelMessageCards.
  destruct (negb (Js.truthy (params_channel params))); [split; discriminate|].
  destruct (getChannelPlugin _) as [plugin|] eqn:Hget; [|split; discriminate].
  apply Hloaded in Hget.
  split; intros H; apply existsb_exists; exists plugin;
    (split; [exact Hget|]);
    destruct (plugin_actions plugin) as [a|]; try discriminate.
  - destruct (supportsButtons a) as [f|]; [|discriminate].
    now destruct (f (cfgOnly (params_cfg params))).
  - destruct (supportsCards a) as [f|]; [|discriminate].
    now destruct (f (cfgOnly (params_cfg params))).
Qed.

Lemma registryOf_lookupWithinLoaded {Cfg Params Err Result : Type}
    (plugins : list (ChannelPlugin Cfg Params Err Result)) :
  lookupWithinLoaded (registryOf plugins).
Proof.
  intros id p Hfind. simpl in *. now apply find_some in Hfind as [Hin _].
Qed.

Lemma feature_for_channel_implies_global_witness :
  let params := {| params_cfg := tt; params_channel := Some "telegram" |} in
  MessageActions.supportsChannelMessageButtonsForChannel
    (registry := featureRegistry) params = true
  /\ MessageActions.supportsChannelMessageButtons
       (registry := featureRegistry) tt = true.
Proof.
  intros params. split; [reflexivity|].
  apply (proj1 (feature_for_channel_implies_global (registry := featureRegistry)
                  params (registryOf_lookupWithinLoaded _))).
  reflexivity.
Defined.

Section DispatchFacts.

Context {Cfg Params Err Result : Type}
        {registry : PluginRegistry Cfg Params Err Result}.

Local Abbreviation Ctx := (ChannelMessageActionContext Params).
Local Abbreviation Plugin := (ChannelPlugin Cfg Params Err Result).

Lemma awaitHandler_not_null (r : outcome Err Result) :
  awaitHandler r <> Returned None.
Proof. destruct r; discriminate. Qed.

(** Past the gate, a primary that can perform the action answers. *)
Lemma dispatch_primary (ctx : Ctx) (p : Plugin) :
  inheritedKey (ctx_channel ctx) = false ->
  ~ gateFires ctx ->
  getChannelPlugin (ctx_channel ctx) = Some p ->
  canPerform p (ctx_action ctx) = true ->
  exists a handle,
    plugin_actions p = Some a
    /\ handleAction a = Some handle
    /\ MessageActions.dispatchChannelMessageAction ctx = awaitHandler (handle ctx).
Proof.
  intros Hkey Hgate Hget Hcan.
  rewrite (dispatch_open ctx Hkey Hgate).
  unfold MessageActions.dispatchToPlugins. rewrite Hget.
  pose proof (handlerOf_canPerform p (ctx_action ctx)) as Hh.
  destruct (MessageActions.handlerOf (Some p)) as [[a handle]|]; [|congruence].
  destruct Hh as (Ha & Hhandle & Heq).
  exists a, handle. rewrite <- Heq, Hcan. auto.
Qed.

(** The loop answers [null] only when it found nobody. *)
Lemma dispatchFallback_null (ctx : Ctx) :
  MessageActions.dispatchFallback ctx listChannelPlugins = Returned None ->
  forall p, In p listChannelPlugins ->
            plugin_id p <> ctx_channel ctx ->
            canPerform p (ctx_action ctx) = false.
Proof.
  intros Hnull p Hin Hid.
  pose proof (dispatchFallback_first ctx listChannelPlugins) as Hfirst.
  destruct (firstFallback listChannelPlugins (ctx_channel ctx) (ctx_action ctx))
    as [q|] eqn:Hff.
  - exfalso. rewrite Hnull in Hfirst. unfold dispatchedTo in Hfirst.
    destruct (plugin_actions q) as [a|]; [|discriminate].
    destruct (handleAction a) as [handle|]; [|discriminate].
    injection Hfirst as Hfirst. now apply awaitHandler_not_null in Hfirst.
  - unfold firstFallback in Hff.
    pose proof (find_none _ _ Hff p Hin) as Hp. simpl in Hp.
    apply String.eqb_neq in Hid. rewrite Hid in Hp. exact Hp.
Qed.

(** A plugin the loop dispatched to. *)
Lemma dispatchFallback_some (ctx : Ctx) (p : Plugin) (candidates : list Plugin) :
  firstFallback candidates (ctx_channel ctx) (ctx_action ctx) = Some p ->
  In p candidates
  /\ plugin_id p <> ctx_channel ctx
  /\ canPerform p (ctx_action ctx) = true.
Proof.
  unfold firstFallback. intros Hff.
  apply find_some in Hff as [Hin Hp].
  apply andb_prop in Hp as [Hid Hcan].
  split; [exact Hin|]. split; [|exact Hcan].
  apply String.eqb_neq. now destruct (String.eqb _ _).
Qed.

End DispatchFacts.

(** X5.  Primary dispatch: when the gate does not fire, the channel is not
    the name of a member that the table inherits, and the plugin registered
    for the channel can perform the action, its handler answers for the
    context as given (channel not rewritten), and the other loaded plugins
    play no part: any registry with the same lookup gives the same
    outcome. *)
Theorem primary_plugin_takes_precedence {Cfg Params Err Result : Type}
    {registry : PluginRegistry Cfg Params Err Result}
    (ctx : ChannelMessageActionContext Params)
    (p : ChannelPlugin Cfg Params Err Result) :
  ~ gateFires ctx ->
  inheritedKey (ctx_channel ctx) = false ->
  getChannelPlugin (ctx_channel ctx) = Some p ->
  canPerform p (ctx_action ctx) = true ->
  (exists a handle,
      plugin_actions p = Some a
      /\ handleAction a = Some handle
      /\ MessageActions.dispatchChannelMessageAction ctx = awaitHandler (handle ctx))
  /\ forall others : list (ChannelPlugin Cfg Params Err Result),
       MessageActions.dispatchChannelMessageAction
         (registry := {| listChannelPlugins := others;
                         getChannelPlugin := getChannelPlugin |}) ctx
       = MessageActions.dispatchChannelMessageAction ctx.
Proof.
  intros Hgate Hkey Hget Hcan.
  destruct (dispatch_primary ctx p Hkey Hgate Hget Hcan)
    as (a & handle & Ha & Hh & Heq).
  split; [now exists a, handle|].
  intros others.
  destruct (dispatch_primary
              (registry := {| listChannelPlugins := others;
                              getChannelPlugin := getChannelPlugin |})
              ctx p Hkey Hgate Hget Hcan) as (a' & handle' & Ha' & Hh' & Heq').
  rewrite Heq, Heq'. congruence.
Qed.

(** Both plugins can perform ["react"]; the one addressed answers. *)
Lemma primary_plugin_takes_precedence_witness :
  MessageActions.dispatchChannelMessageAction (registry := featureRegistry)
    (exampleCtx "telegram" "react" None None)
  = Returned (Some "telegram did react on telegram").
Proof.
  destruct (primary_plugin_takes_precedence (registry := featureRegistry)
              (exampleCtx "telegram" "react" None None)
              (capablePlugin "telegram" ["react"; "poll"] true false))
    as ((a & handle & Ha & Hh & Heq) & _).
  - now apply not_gateFires_off_table, table_lookup_other.
  - reflexivity.
  - reflexivity.
  - reflexivity.
  - injection Ha as <-. injection Hh as <-. exact Heq.
Defined.

(** X6.  Where the authorization gate fires, the dispatch rejects with a
    message that names the channel and the action, and it does so under
    every plugin registry: no plugin is looked up and no handler runs. *)
Theorem gate_rejects_before_any_plugin {Cfg Params Err Result : Type}
    (registry registry' : PluginRegistry Cfg Params Err Result)
    (ctx : ChannelMessageActionContext Params) :
  gateFires ctx ->
  MessageActions.dispatchChannelMessageAction (registry := registry) ctx
  = Threw (TrustedSenderRequired
             ("Trusted sender identity is required for " ++ ctx_channel ctx
              ++ ":" ++ ctx_action ctx ++ " in tool-driven contexts."))
  /\ MessageActions.dispatchChannelMessageAction (registry := registry') ctx
     = MessageActions.dispatchChannelMessageAction (registry := registry) ctx.
Proof.
  intros Hgate.
  rewrite (dispatch_gate (registry := registry) ctx Hgate),
          (dispatch_gate (registry := registry') ctx Hgate).
  split; reflexivity.
Qed.

Lemma gate_rejects_before_any_plugin_witness :
  MessageActions.dispatchChannelMessageAction (registry := moderationRegistry)
    (exampleCtx "discord" "ban" (Some "  ") (Some true))
  = Threw (TrustedSenderRequired
             "Trusted sender identity is required for discord:ban in tool-driven contexts.").
Proof.
  refine (proj1 (gate_rejects_before_any_plugin moderationRegistry pingRegistry
                   (exampleCtx "discord" "ban" (Some "  ") (Some true)) _)).
  split; [|split].
  - exists ["timeout"; "kick"; "ban"]. split; [now apply table_own|].
    simpl. tauto.
  - reflexivity.
  - right. exists "  ". split; reflexivity.
Defined.

(** X7.  A [null] outcome means the action is unsupported: the gate did not
    fire, the plugin registered for the channel cannot perform the action,
    and neither can any loaded plugin registered under another id. *)
Theorem null_means_unsupported {Cfg Params Err Result : Type}
    {registry : PluginRegistry Cfg Params Err Result}
    (ctx : ChannelMessageActionContext Params) :
  MessageActions.dispatchChannelMessageAction ctx = Returned None ->
  ~ gateFires ctx
  /\ primaryCanPerform (getChannelPlugin (ctx_channel ctx)) (ctx_action ctx) = false
  /\ forall p, In p listChannelPlugins ->
               plugin_id p <> ctx_channel ctx ->
               canPerform p (ctx_action ctx) = false.
Proof.
  intros Hnull.
  assert (Hgate : ~ gateFires ctx).
  { intros Hg. rewrite (dispatch_gate ctx Hg) in Hnull. discriminate. }
  assert (Hkey : inheritedKey (ctx_channel ctx) = false).
  { destruct (inheritedKey (ctx_channel ctx)) eqn:Hk; [|reflexivity].
    rewrite (dispatch_inherited ctx Hk) in Hnull. discriminate. }
  split; [exact Hgate|].
  destruct (primaryCanPerform (getChannelPlugin (ctx_channel ctx)) (ctx_action ctx))
    eqn:Hprimary.
  - exfalso. unfold primaryCanPerform in Hprimary.
    destruct (getChannelPlugin (ctx_channel ctx)) as [p|] eqn:Hget; [|discriminate].
    destruct (dispatch_primary ctx p Hkey Hgate Hget Hprimary)
      as (a & handle & _ & _ & Heq).
    rewrite Heq in Hnull. now apply awaitHandler_not_null in Hnull.
  - split; [reflexivity|].
    rewrite (dispatch_past_gate ctx Hkey Hgate Hprimary) in Hnull.
    now apply dispatchFallback_null.
Qed.

Lemma null_means_unsupported_witness :
  MessageActions.dispatchChannelMessageAction (registry := featureRegistry)
    (exampleCtx "matrix" "kick" None None) = Returned None
  /\ canPerform (capablePlugin "telegram" ["react"; "poll"] true false) "kick" = false.
Proof.
  split; [reflexivity|].
  destruct (null_means_unsupported (registry := featureRegistry)
              (exampleCtx "matrix" "kick" None None) eq_refl)
    as (_ & _ & Hall).
  apply Hall; [|discriminate].
  simpl. right. right. now left.
Defined.

(** X8.  Every dispatch ends in one of four ways: the [TypeError] of calling
    [has] on a member that the table inherits, which happens exactly when
    the channel is the name of such a member; the trusted-sender rejection;
    [null]; or the answer of a handler.  The handler is that of a plugin
    that can perform the action, either the one registered for the channel
    (context unchanged) or a loaded one registered under another id (context
    with only the channel rewritten to that id). *)
Theorem dispatch_only_to_capable_plugin {Cfg Params Err Result : Type}
    {registry : PluginRegistry Cfg Params Err Result}
    (ctx : ChannelMessageActionContext Params) :
  (MessageActions.dispatchChannelMessageAction ctx = Threw HasIsNotAFunction
   <-> inheritedKey (ctx_channel ctx) = true)
  /\ (MessageActions.dispatchChannelMessageAction ctx = Threw HasIsNotAFunction
      \/ (exists message,
             MessageActions.dispatchChannelMessageAction ctx
             = Threw (TrustedSenderRequired message))
      \/ MessageActions.dispatchChannelMessageAction ctx = Returned None
      \/ exists p a handle ctx',
           plugin_actions p = Some a
           /\ handleAction a = Some handle
           /\ canPerform p (ctx_action ctx) = true
           /\ MessageActions.dispatchChannelMessageAction ctx
              = awaitHandler (handle ctx')
           /\ ((getChannelPlugin (ctx_channel ctx) = Some p /\ ctx' = ctx)
               \/ (In p listChannelPlugins
                   /\ plugin_id p <> ctx_channel ctx
                   /\ ctx' = withChannel ctx (plugin_id p)))).
Proof.
  split; [apply dispatch_type_error|].
  destruct (inheritedKey (ctx_channel ctx)) eqn:Hkey.
  { left. now apply dispatch_inherited. }
  right.
  destruct (gate_decided (Err := Err) ctx Hkey) as [Hg | Hgate].
  { left. rewrite (dispatch_gate ctx Hg). eauto. }
  right.
  destruct (primaryCanPerform (getChannelPlugin (ctx_channel ctx)) (ctx_action ctx))
    eqn:Hprimary.
  - right. unfold primaryCanPerform in Hprimary.
    destruct (getChannelPlugin (ctx_channel ctx)) as [p|] eqn:Hget; [|discriminate].
    destruct (dispatch_primary ctx p Hkey Hgate Hget Hprimary)
      as (a & handle & Ha & Hh & Heq).
    exists p, a, handle, ctx. repeat (split; [assumption|]). left. now split.
  - rewrite (dispatch_past_gate ctx Hkey Hgate Hprimary).
    pose proof (dispatchFallback_first ctx listChannelPlugins) as Hfirst.
    destruct (firstFallback listChannelPlugins (ctx_channel ctx) (ctx_action ctx))
      as [p|] eqn:Hff; [|now left].
    right. apply dispatchFallback_some in Hff as (Hin & Hid & Hcan).
    unfold dispatchedTo in Hfirst.
    destruct (plugin_actions p) as [a|] eqn:Ha; [|discriminate].
    destruct (handleAction a) as [handle|] eqn:Hh; [|discriminate].
    injection Hfirst as Hfirst.
    exists p, a, handle, (withChannel ctx (plugin_id p)).
    split; [exact Ha|]. split; [exact Hh|]. split; [exact Hcan|].
    split; [now rewrite Hfirst|]. right. auto.
Qed.

(** A dispatch on channel ["constructor"] ends with the [TypeError], whatever
    the plugins. *)
Example dispatch_on_inherited_member :
  MessageActions.dispatchChannelMessageAction (registry := pingRegistry)
    (exampleCtx "constructor" "ping" None None)
  = Threw HasIsNotAFunction.
Proof. now apply dispatch_inherited. Qed.

(* ===================================================================== *)
(** ** What the resolver's answer depends on                              *)
(* ===================================================================== *)

Section ResolverDependencies.

Context {Cfg Err : Type} {imports : ResolverImports Cfg Err}.

Variable cfg : Cfg.
Variable agentId : string.

Lemma finish_channel (p : JobPayload) (o : option ResolveOptions)
    (fallback : option string) :
  target_channel (finish cfg agentId p o fallback)
  = resolvedChannel cfg agentId p o fallback.
Proof.
  unfold finish. destruct (sdt_to _) as [c|]; [|reflexivity].
  destruct (Js.isEmpty c); reflexivity.
Qed.

Lemma finish_accountId (p : JobPayload) (o : option ResolveOptions)
    (fallback : option string) :
  target_accountId (finish cfg agentId p o fallback)
  = resolvedAccountId cfg agentId p o fallback.
Proof.
  unfold finish. destruct (sdt_to _) as [c|]; [|reflexivity].
  destruct (Js.isEmpty c); reflexivity.
Qed.

(** The resolver reads the payload and the options only through the
    short-circuit decision, the origin channel in use, the effective request
    and the session entry. *)
Lemma resolve_congruence (p1 p2 : JobPayload) (o1 o2 : option ResolveOptions) :
  originShortCircuit p1 o1 = originShortCircuit p2 o2 ->
  (if useOrigin p1 o1 && Js.truthy (originChannel o1) then originChannel o1 else None)
  = (if useOrigin p2 o2 && Js.truthy (originChannel o2) then originChannel o2 else None) ->
  requestedChannel p1 o1 = requestedChannel p2 o2 ->
  explicitTo p1 o1 = explicitTo p2 o2 ->
  main cfg agentId p1 = main cfg agentId p2 ->
  resolveDeliveryTarget cfg agentId p1 o1 = resolveDeliveryTarget cfg agentId p2 o2.
Proof.
  intros Hshort Horigin Hreq Hto Hmain.
  assert (Hprelim : preliminary cfg agentId p1 o1 = preliminary cfg agentId p2 o2).
  { unfold preliminary, allowMismatchedLastTo. now rewrite Hreq, Hto, Hmain. }
  assert (Hfb : fallbackChannel cfg agentId p1 o1 = fallbackChannel cfg agentId p2 o2).
  { unfold fallbackChannel. rewrite Hprelim.
    destruct (negb (Js.truthy (sdt_channel _))); [|reflexivity].
    destruct (useOrigin p1 o1 && Js.truthy (originChannel o1)) eqn:H1;
      destruct (useOrigin p2 o2 && Js.truthy (originChannel o2)) eqn:H2.
    - now rewrite Horigin.
    - apply andb_prop in H1 as [_ H1]. rewrite Horigin in H1. discriminate.
    - apply andb_prop in H2 as [_ H2]. rewrite <- Horigin in H2. discriminate.
    - reflexivity. }
  assert (Hres : forall fb, resolved cfg agentId p1 o1 fb = resolved cfg agentId p2 o2 fb).
  { intros fb. unfold resolved, allowMismatchedLastTo.
    now rewrite Hprelim, Hreq, Hto, Hmain. }
  assert (Hfin : forall fb, finish cfg agentId p1 o1 fb = finish cfg agentId p2 o2 fb).
  { intros fb. unfold finish, resolvedAccountId, resolvedChannel.
    now rewrite Hres. }
  unfold resolveDeliveryTarget. rewrite Hshort, Hfb.
  destruct (originShortCircuit p2 o2) as [[[o ch] t]|]; [reflexivity|].
  destruct (fallbackChannel cfg agentId p2 o2) as [fb|]; simpl; [|reflexivity].
  now rewrite Hfin.
Qed.

Lemma originShortCircuit_unused (p : JobPayload) (o : option ResolveOptions) :
  useOrigin p o = false -> originShortCircuit p o = None.
Proof.
  intros Hu. unfold originShortCircuit. rewrite Hu. simpl.
  destruct (origin o) as [x|]; [|reflexivity].
  destruct (origin_channel x); [|reflexivity].
  destruct (origin_to x); reflexivity.
Qed.

(** An origin that is not in use leaves no trace. *)
Lemma resolve_without_origin (p : JobPayload) (o : option ResolveOptions) :
  useOrigin p o = false ->
  resolveDeliveryTarget cfg agentId p o = resolveDeliveryTarget cfg agentId p None.
Proof.
  intros Hu.
  assert (Hn : useOrigin p None = false) by reflexivity.
  apply resolve_congruence.
  - now rewrite !originShortCircuit_unused.
  - now rewrite Hu, Hn.
  - unfold requestedChannel. now rewrite Hu, Hn.
  - unfold explicitTo. now rewrite Hu, Hn.
  - reflexivity.
Qed.

End ResolverDependencies.

(** X9.  Explicit payload values take precedence, and mode ["current"] turns
    the origin off: when the payload names a concrete channel or a recipient
    that is not blank, or the delivery mode is ["current"], the resolver
    answers exactly as if no options had been passed. *)
Theorem origin_ignored_when_overridden {Cfg Err : Type}
    {imports : ResolverImports Cfg Err}
    (cfg : Cfg) (agentId : string) (jobPayload : JobPayload)
    (opts : ResolveOptions) :
  suppliesChannel jobPayload
  \/ suppliesTo jobPayload
  \/ options_deliveryMode opts = Some ModeCurrent ->
  resolveDeliveryTarget cfg agentId jobPayload (Some opts)
  = resolveDeliveryTarget cfg agentId jobPayload None.
Proof.
  intros H. apply resolve_without_origin.
  unfold useOrigin, deliveryMode, origin.
  destruct H as [H | [H | H]].
  - apply hasExplicitChannel_spec in H. rewrite H.
    destruct (Js.nullish _ _); [|reflexivity].
    now destruct (options_origin opts).
  - apply hasExplicitTo_spec in H. rewrite H.
    destruct (Js.nullish _ _); [|reflexivity].
    destruct (options_origin opts); [|reflexivity].
    now rewrite andb_false_r.
  - now rewrite H.
Qed.

(** The payload names a recipient: the origin's thread id does not leak. *)
Lemma origin_ignored_when_overridden_witness :
  let env := exampleImports feishuStore (Threw "none") in
  let payload :=
    {| payload_channel := None; payload_to := Some "oc_2";
       payload_sessionKey := None |} in
  let opts :=
    {| options_origin := Some telegramOrigin; options_deliveryMode := None |} in
  resolveDeliveryTarget (imports := env) tt "main" payload (Some opts)
  = Returned
      {| target_channel := "feishu"; target_to := Some "oc_2";
         target_accountId := None; target_threadId := None;
         target_mode := Explicit; target_error := None |}.
Proof.
  intros env payload opts.
  refine (eq_trans
            (origin_ignored_when_overridden (imports := env) tt "main" payload opts _)
            _).
  - right. left. exists "oc_2". split; reflexivity.
  - reflexivity.
Defined.

Lemma trimEnd_idempotent (s : string) :
  Js.trimEnd (Js.trimEnd s) = Js.trimEnd s.
Proof.
  induction s as [|c r IH]; simpl; [reflexivity|].
  destruct (Js.isWhiteSpace c && Js.isEmpty (Js.trimEnd r)) eqn:E; simpl;
    [reflexivity|].
  rewrite IH, E. reflexivity.
Qed.

Lemma trimStart_fixed (s : string) :
  match s with
  | EmptyString => True
  | String c _ => Js.isWhiteSpace c = false
  end ->
  Js.trimStart (Js.trimEnd s) = Js.trimEnd s.
Proof.
  destruct s as [|c r]; simpl; [reflexivity|].
  intros Hc. rewrite Hc. simpl. now rewrite Hc.
Qed.

(** [s.trim().trim() === s.trim()] *)
Lemma trim_idempotent (s : string) : Js.trim (Js.trim s) = Js.trim s.
Proof.
  unfold Js.trim.
  rewrite trimStart_fixed, trimEnd_idempotent; [reflexivity|].
  destruct (Js.trimStart s) as [|c r] eqn:E; [exact I|].
  now apply trimStart_head in E.
Qed.

Section ThreadSession.

Context {Cfg Err : Type} {imports : ResolverImports Cfg Err}.

Variable cfg : Cfg.
Variable agentId : string.

(** The payload's [sessionKey] matters only through the thread entry. *)
Lemma resolve_same_thread_entry (p1 p2 : JobPayload) (o : option ResolveOptions) :
  payload_channel p1 = payload_channel p2 ->
  payload_to p1 = payload_to p2 ->
  threadEntry cfg agentId p1 = threadEntry cfg agentId p2 ->
  resolveDeliveryTarget cfg agentId p1 o = resolveDeliveryTarget cfg agentId p2 o.
Proof.
  intros Hc Ht He.
  assert (Hec : hasExplicitChannel p1 = hasExplicitChannel p2).
  { unfold hasExplicitChannel. now rewrite Hc. }
  assert (Het : hasExplicitTo p1 = hasExplicitTo p2).
  { unfold hasExplicitTo. now rewrite Ht. }
  assert (Hu : useOrigin p1 o = useOrigin p2 o).
  { unfold useOrigin. now rewrite Hec, Het. }
  apply resolve_congruence.
  - unfold originShortCircuit. now rewrite Hu.
  - now rewrite Hu.
  - unfold requestedChannel. now rewrite Hec, Hu, Hc.
  - unfold explicitTo. now rewrite Het, Hu, Ht.
  - unfold main. now rewrite He.
Qed.

End ThreadSession.

(** X10.  A thread session key that is blank, or that, trimmed, names neither
    an entry of the store nor a member that the store object inherits, falls
    back to the agent's main session: the resolver answers as for the payload
    without [sessionKey]. *)
Theorem missing_thread_session_falls_back {Cfg Err : Type}
    {imports : ResolverImports Cfg Err}
    (cfg : Cfg) (agentId : string) (jobPayload : JobPayload)
    (options : option ResolveOptions) (key : string) :
  payload_sessionKey jobPayload = Some key ->
  Js.whitespaceOnly key = true
  \/ objectGet (store cfg agentId) (Js.trim key) = Absent ->
  resolveDeliveryTarget cfg agentId jobPayload options
  = resolveDeliveryTarget cfg agentId (withoutSessionKey jobPayload) options.
Proof.
  intros Hkey Hmiss.
  apply resolve_same_thread_entry; try reflexivity.
  unfold threadEntry, threadSessionKey. rewrite Hkey. simpl.
  rewrite trim_isEmpty.
  destruct Hmiss as [-> | Hnone]; [reflexivity|].
  rewrite Hnone. now destruct (Js.whitespaceOnly key).
Qed.

(** A session key that names an inherited member does not fall back: the
    entry handed to the session resolver is that member, not the main
    session's entry. *)
Example inherited_session_key_hides_main_entry :
  main (imports := exampleImports feishuStore (Threw "none")) tt "main"
    {| payload_channel := Some "last"; payload_to := None;
       payload_sessionKey := Some "constructor" |}
  = Inherited.
Proof. reflexivity. Qed.

Lemma missing_thread_session_falls_back_witness :
  let env := exampleImports feishuStore (Threw "none") in
  let payload :=
    {| payload_channel := Some "last"; payload_to := None;
       payload_sessionKey := Some "agent:main:main:thread:77" |} in
  resolveDeliveryTarget (imports := env) tt "main" payload None
  = Returned
      {| target_channel := "feishu"; target_to := Some "oc_1";
         target_accountId := None;
         target_threadId := Some (ThreadIdString "t9");
         target_mode := Implicit; target_error := None |}.
Proof.
  intros env payload.
  refine (eq_trans
            (missing_thread_session_falls_back (imports := env) tt "main" payload
               None "agent:main:main:thread:77" eq_refl (or_intror _))
            _);
    reflexivity.
Defined.

(** X11.  The thread session key is looked up trimmed: surrounding white
    space in [sessionKey] does not change the answer. *)
Theorem thread_session_key_is_trimmed {Cfg Err : Type}
    {imports : ResolverImports Cfg Err}
    (cfg : Cfg) (agentId : string) (jobPayload : JobPayload)
    (options : option ResolveOptions) (key : string) :
  payload_sessionKey jobPayload = Some key ->
  resolveDeliveryTarget cfg agentId jobPayload options
  = resolveDeliveryTarget cfg agentId (withSessionKey jobPayload (Js.trim key)) options.
Proof.
  intros Hkey.
  apply resolve_same_thread_entry; try reflexivity.
  unfold threadEntry, threadSessionKey. rewrite Hkey. simpl.
  now rewrite trim_idempotent.
Qed.

Lemma thread_session_key_is_trimmed_witness :
  let threadStore : gmap string SessionEntry :=
    {[ "agent:main:main:thread:77" := feishuEntry ]} in
  let env := exampleImports threadStore (Threw "none") in
  let payload :=
    {| payload_channel := None; payload_to := None;
       payload_sessionKey := Some "  agent:main:main:thread:77 " |} in
  resolveDeliveryTarget (imports := env) tt "main" payload None
  = Returned
      {| target_channel := "feishu"; target_to := Some "oc_1";
         target_accountId := None;
         target_threadId := Some (ThreadIdString "t9");
         target_mode := Implicit; target_error := None |}.
Proof.
  intros threadStore env payload.
  refine (eq_trans
            (thread_session_key_is_trimmed (imports := env) tt "main" payload
               None "  agent:main:main:thread:77 " eq_refl)
            _).
  reflexivity.
Defined.

Section ResultShape.

Context {Cfg Err : Type} {imports : ResolverImports Cfg Err}.

Variable cfg : Cfg.
Variable agentId : string.
Variable jobPayload : JobPayload.
Variable options : option ResolveOptions.

Lemma routeToOrigin_error (o : CronOrigin) (ch raw : string) (e : Err) :
  target_error (routeToOrigin cfg o ch raw) = Some e ->
  target_to (routeToOrigin cfg o ch raw) = None
  /\ exists call, resolveOutboundTarget call = TargetRejected e.
Proof.
  unfold routeToOrigin; simpl.
  destruct (resolveOutboundTarget _) as [t|e'] eqn:E; [discriminate|].
  intros [= ->]. split; [reflexivity|]. eauto.
Qed.

Lemma finish_error (fallback : option string) (e : Err) :
  target_error (finish cfg agentId jobPayload options fallback) = Some e ->
  target_to (finish cfg agentId jobPayload options fallback) = None
  /\ exists call, resolveOutboundTarget call = TargetRejected e.
Proof.
  unfold finish.
  destruct (sdt_to _) as [c|]; [|discriminate].
  destruct (Js.isEmpty c); [discriminate|]. simpl.
  destruct (resolveOutboundTarget _) as [t|e'] eqn:E; [discriminate|].
  intros [= ->]. split; [reflexivity|]. eauto.
Qed.

Lemma resolvedThreadId_truthy (s : SessionDeliveryTarget) (t : ThreadId) :
  resolvedThreadId s = Some t -> truthyThreadId (Some t) = true.
Proof.
  unfold resolvedThreadId.
  destruct (truthyThreadId (sdt_threadId s)) eqn:E; simpl; [|discriminate].
  destruct (_ || _); [|discriminate].
  intros H. rewrite H in E. exact E.
Qed.

(** Lines 145 to 153 change the account only to fill a gap. *)
Lemma resolvedAccountId_changes (fallback : option string) :
  let s := resolved cfg agentId jobPayload options fallback in
  let channel := resolvedChannel cfg agentId jobPayload options fallback in
  resolvedAccountId cfg agentId jobPayload options fallback = sdt_accountId s
  \/ (Js.truthy (sdt_accountId s) = false
      /\ channel <> ""
      /\ exists byAgent first rest,
           buildChannelAccountBindings cfg !! channel = Some byAgent
           /\ byAgent !! normalizeAgentId agentId = Some (first :: rest)
           /\ resolvedAccountId cfg agentId jobPayload options fallback = Some first).
Proof.
  intros s channel. unfold resolvedAccountId. fold s. fold channel.
  destruct (Js.truthy (sdt_accountId s)) eqn:Ht; simpl; [now left|].
  destruct (Js.isEmpty channel) eqn:He; simpl; [now left|].
  destruct (buildChannelAccountBindings cfg !! channel) as [byAgent|] eqn:Hb;
    [|now left].
  destruct (byAgent !! normalizeAgentId agentId) as [[|first rest]|] eqn:Ha;
    [now left| |now left].
  right. split; [reflexivity|]. split.
  - intros Hc. rewrite Hc in He. discriminate.
  - now exists byAgent, first, rest.
Qed.

End ResultShape.

(** X12.  A returned target never carries both a recipient and an error, and
    an error is always one the normaliser rejected a candidate with. *)
Theorem recipient_and_error_exclusive {Cfg Err : Type}
    {imports : ResolverImports Cfg Err}
    (cfg : Cfg) (agentId : string) (jobPayload : JobPayload)
    (options : option ResolveOptions) (r : DeliveryTarget Err) (e : Err) :
  resolveDeliveryTarget cfg agentId jobPayload options = Returned r ->
  target_error r = Some e ->
  target_to r = None
  /\ exists call, resolveOutboundTarget call = TargetRejected e.
Proof.
  intros Hr He.
  destruct (resolveDeliveryTarget_cases cfg agentId jobPayload options)
    as [(o & ch & raw & _ & Heq)|(fb & _ & _ & Heq)];
    rewrite Heq in Hr; injection Hr as <-.
  - now apply routeToOrigin_error.
  - now apply (finish_error cfg agentId jobPayload options fb).
Qed.

Lemma recipient_and_error_exclusive_witness :
  let env := exampleImports ∅ (Threw "none") in
  let options :=
    Some {| options_origin :=
              Some {| origin_channel := Some "telegram"; origin_to := Some " ";
                      origin_accountId := None; origin_threadId := None |};
            options_deliveryMode := None |} in
  exists r,
    resolveDeliveryTarget (imports := env) tt "main" noPayload options = Returned r
    /\ target_error r = Some "missing target"
    /\ target_to r = None.
Proof.
  intros env options. eexists. split; [reflexivity|]. split; [reflexivity|].
  apply (recipient_and_error_exclusive (imports := env) tt "main" noPayload options
           _ "missing target"); reflexivity.
Defined.

(** X13.  Off the origin short-circuit, the account bindings only fill a gap:
    the result's account is the session-resolved one unless that one is
    missing (undefined or empty) and the channel is not empty, in which case
    it may be the first account bound to the channel for the normalised
    agent id. *)
Theorem bindings_only_fill_missing_account {Cfg Err : Type}
    {imports : ResolverImports Cfg Err}
    (cfg : Cfg) (agentId : string) (jobPayload : JobPayload)
    (options : option ResolveOptions) :
  originShortCircuit jobPayload options = None ->
  exists fallback r,
    fallbackChannel cfg agentId jobPayload options = Returned fallback
    /\ resolveDeliveryTarget cfg agentId jobPayload options = Returned r
    /\ let s := resolved cfg agentId jobPayload options fallback in
       target_accountId r = sdt_accountId s
       \/ (Js.truthy (sdt_accountId s) = false
           /\ target_channel r <> ""
           /\ exists byAgent first rest,
                buildChannelAccountBindings cfg !! target_channel r = Some byAgent
                /\ byAgent !! normalizeAgentId agentId = Some (first :: rest)
                /\ target_accountId r = Some first).
Proof.
  intros Hnone.
  destruct (resolveDeliveryTarget_cases cfg agentId jobPayload options)
    as [(o & ch & raw & Hshort & _)|(fb & _ & Hfb & Heq)]; [congruence|].
  exists fb, (finish cfg agentId jobPayload options fb).
  split; [exact Hfb|]. split; [exact Heq|].
  cbv zeta. rewrite finish_accountId, finish_channel.
  apply resolvedAccountId_changes.
Qed.

(** A first-run session: no stored account, two accounts bound. *)
Lemma bindings_only_fill_missing_account_witness :
  let bound : gmap string (gmap string (list string)) :=
    {[ "feishu" := {[ "main" := ["bot-a"; "bot-b"] ]} ]} in
  let env :=
    withBindings (exampleImports feishuStore (Threw "none")) (fun _ => bound) in
  exists r,
    resolveDeliveryTarget (imports := env) tt "main" noPayload None = Returned r
    /\ target_channel r = "feishu"
    /\ target_accountId r = Some "bot-a".
Proof.
  intros bound env.
  destruct (bindings_only_fill_missing_account (imports := env) tt "main"
              noPayload None eq_refl)
    as (fb & r & Hfb & Hr & Hacc).
  exists r. split; [exact Hr|].
  injection Hr as <-. split; reflexivity.
Defined.

(** X14.  Off the origin short-circuit, a thread id that reaches the result
    is never the empty string or zero. *)
Theorem returned_thread_id_is_truthy {Cfg Err : Type}
    {imports : ResolverImports Cfg Err}
    (cfg : Cfg) (agentId : string) (jobPayload : JobPayload)
    (options : option ResolveOptions) (r : DeliveryTarget Err) (t : ThreadId) :
  originShortCircuit jobPayload options = None ->
  resolveDeliveryTarget cfg agentId jobPayload options = Returned r ->
  target_threadId r = Some t ->
  t <> ThreadIdString "" /\ t <> ThreadIdNumber 0.
Proof.
  intros Hnone Hr Ht.
  destruct (resolveDeliveryTarget_cases cfg agentId jobPayload options)
    as [(o & ch & raw & Hshort & _)|(fb & _ & _ & Heq)]; [congruence|].
  rewrite Heq in Hr. injection Hr as <-.
  rewrite finish_threadId in Ht.
  apply resolvedThreadId_truthy in Ht.
  split; intros ->; discriminate Ht.
Qed.

Lemma returned_thread_id_is_truthy_witness :
  let env := exampleImports feishuStore (Threw "none") in
  exists r,
    resolveDeliveryTarget (imports := env) tt "main" noPayload None = Returned r
    /\ target_threadId r = Some (ThreadIdString "t9")
    /\ ThreadIdString "t9" <> ThreadIdString ""
    /\ ThreadIdString "t9" <> ThreadIdNumber 0.
Proof.
  intros env. eexists. split; [reflexivity|]. split; [reflexivity|].
  apply (returned_thread_id_is_truthy (imports := env) tt "main" noPayload None
           _ (ThreadIdString "t9") eq_refl eq_refl eq_refl).
Defined.

(** A stored thread id of zero is dropped even for the stored recipient. *)
Example zero_thread_id_is_dropped :
  let zeroEntry :=
    {| entry_sessionId := "s3"; entry_updatedAt := 3;
       entry_lastChannel := Some "telegram"; entry_lastTo := Some "42";
       entry_lastAccountId := None;
       entry_lastThreadId := Some (ThreadIdNumber 0) |} in
  resolveDeliveryTarget
    (imports := exampleImports {[ "agent:main:main" := zeroEntry ]} (Threw "none"))
    tt "main" noPayload None
  = Returned
      {| target_channel := "telegram"; target_to := Some "42";
         target_accountId := None; target_threadId := None;
         target_mode := Implicit; target_error := None |}.
Proof. reflexivity. Qed.

Section SelectionUse.

Context {Cfg Err : Type} {imports : ResolverImports Cfg Err}.

Variable selection' : Cfg -> outcome Err string.
Variable cfg : Cfg.
Variable agentId : string.
Variable jobPayload : JobPayload.
Variable options : option ResolveOptions.

(** Everything but the fallback channel is blind to the channel selection. *)
Lemma preliminary_withChannelSelection :
  preliminary (imports := withChannelSelection imports selection')
    cfg agentId jobPayload options
  = preliminary cfg agentId jobPayload options.
Proof. reflexivity. Qed.

Lemma finish_withChannelSelection (fallback : option string) :
  finish (imports := withChannelSelection imports selection')
    cfg agentId jobPayload options fallback
  = finish cfg agentId jobPayload options fallback.
Proof. reflexivity. Qed.

Lemma fallbackChannel_withChannelSelection :
  Js.truthy (sdt_channel (preliminary cfg agentId jobPayload options)) = true
  \/ useOrigin jobPayload options && Js.truthy (originChannel options) = true ->
  fallbackChannel (imports := withChannelSelection imports selection')
    cfg agentId jobPayload options
  = fallbackChannel cfg agentId jobPayload options.
Proof.
  intros H. unfold fallbackChannel.
  rewrite preliminary_withChannelSelection.
  destruct (negb (Js.truthy (sdt_channel _))) eqn:Hp; [|reflexivity].
  destruct H as [H | H].
  - rewrite H in Hp. discriminate.
  - now rewrite H.
Qed.

End SelectionUse.

(** X15.  The channel selection is consulted only as a last resort: when the
    preliminary session resolution yields a channel, or the origin's channel
    is in use, the resolver's answer is the same whatever the channel
    selection would return or throw. *)
Theorem channel_selection_only_as_last_resort {Cfg Err : Type}
    {imports : ResolverImports Cfg Err}
    (selection' : Cfg -> outcome Err string)
    (cfg : Cfg) (agentId : string) (jobPayload : JobPayload)
    (options : option ResolveOptions) :
  Js.truthy (sdt_channel (preliminary cfg agentId jobPayload options)) = true
  \/ useOrigin jobPayload options && Js.truthy (originChannel options) = true ->
  resolveDeliveryTarget (imports := withChannelSelection imports selection')
    cfg agentId jobPayload options
  = resolveDeliveryTarget cfg agentId jobPayload options.
Proof.
  intros H. unfold resolveDeliveryTarget.
  destruct (originShortCircuit jobPayload options) as [[[o ch] t]|];
    [reflexivity|].
  rewrite (fallbackChannel_withChannelSelection selection' cfg agentId
             jobPayload options H).
  destruct (fallbackChannel cfg agentId jobPayload options) as [fb|];
    [|reflexivity].
  simpl. now rewrite finish_withChannelSelection.
Qed.

Lemma channel_selection_only_as_last_resort_witness :
  let env := exampleImports feishuStore (Threw "none") in
  resolveDeliveryTarget
    (imports := withChannelSelection env (fun _ => Returned "discord"))
    tt "main" noPayload None
  = Returned
      {| target_channel := "feishu"; target_to := Some "oc_1";
         target_accountId := None;
         target_threadId := Some (ThreadIdString "t9");
         target_mode := Implicit; target_error := None |}.
Proof.
  intros env.
  refine (eq_trans
            (channel_selection_only_as_last_resort (imports := env)
               (fun _ => Returned "discord") tt "main" noPayload None
               (or_introl eq_refl))
            _).
  reflexivity.
Defined.

Lemma whitespaceOnly_false_nonempty (s : string) :
  Js.whitespaceOnly s = false -> Js.isEmpty s = false.
Proof. destruct s; [discriminate|reflexivity]. Qed.

(** X16.  An origin that carries a recipient but no channel does not
    short-circuit; when that recipient is not blank and the payload overrides
    nothing, the resolver answers as if the payload itself had named the
    recipient and no origin had been given. *)
Theorem recipient_only_origin_acts_as_payload_recipient {Cfg Err : Type}
    {imports : ResolverImports Cfg Err}
    (cfg : Cfg) (agentId : string) (jobPayload : JobPayload)
    (opts : ResolveOptions) (o : CronOrigin) (t : string) :
  options_origin opts = Some o ->
  options_deliveryMode opts = None \/ options_deliveryMode opts = Some ModeOrigin ->
  Js.truthy (origin_channel o) = false ->
  origin_to o = Some t ->
  Js.whitespaceOnly t = false ->
  ~ suppliesChannel jobPayload ->
  ~ suppliesTo jobPayload ->
  resolveDeliveryTarget cfg agentId jobPayload (Some opts)
  = resolveDeliveryTarget cfg agentId (withTo jobPayload t) None.
Proof.
  intros Ho Hm Hch Hto Hws Hc Ht.
  pose proof (whitespaceOnly_false_nonempty t Hws) as Hne.
  assert (Hu : useOrigin jobPayload (Some opts) = true).
  { rewrite (useOrigin_intro jobPayload opts o Ho Hm Hc Ht), Hch, Hto. simpl.
    now rewrite Hne. }
  assert (Hoc : originChannel (Some opts) = origin_channel o).
  { unfold originChannel, origin. now rewrite Ho. }
  assert (Hot : originTo (Some opts) = Some t).
  { unfold originTo, origin. now rewrite Ho. }
  assert (Hec : hasExplicitChannel (withTo jobPayload t) = false).
  { apply (hasExplicitChannel_absent jobPayload) in Hc. exact Hc. }
  assert (Het : hasExplicitTo (withTo jobPayload t) = true).
  { unfold hasExplicitTo. simpl. now rewrite trim_blank, Hws. }
  assert (Hu' : useOrigin (withTo jobPayload t) None = false) by reflexivity.
  apply resolve_congruence.
  - rewrite (originShortCircuit_unused (withTo jobPayload t) None Hu').
    unfold originShortCircuit, origin. rewrite Ho.
    destruct (origin_channel o) as [ch|]; [|reflexivity].
    destruct (origin_to o); [|reflexivity].
    simpl in Hch. destruct (Js.isEmpty ch); [|discriminate].
    now rewrite andb_false_r.
  - rewrite Hoc, Hch, Hu', andb_false_r. reflexivity.
  - unfold requestedChannel.
    rewrite (hasExplicitChannel_absent jobPayload Hc), Hec, Hoc, Hch, Hu'.
    now rewrite andb_false_r.
  - unfold explicitTo.
    rewrite (hasExplicitTo_absent jobPayload Ht), Het, Hu, Hot. simpl.
    now rewrite Hne.
  - reflexivity.
Qed.

Lemma recipient_only_origin_acts_as_payload_recipient_witness :
  let env := exampleImports feishuStore (Threw "none") in
  let o :=
    {| origin_channel := None; origin_to := Some "oc_7";
       origin_accountId := Some "ignored";
       origin_threadId := Some (ThreadIdString "t1") |} in
  let opts := {| options_origin := Some o; options_deliveryMode := None |} in
  resolveDeliveryTarget (imports := env) tt "main" noPayload (Some opts)
  = Returned
      {| target_channel := "feishu"; target_to := Some "oc_7";
         target_accountId := None; target_threadId := None;
         target_mode := Explicit; target_error := None |}.
Proof.
  intros env o opts.
  refine (eq_trans
            (recipient_only_origin_acts_as_payload_recipient (imports := env)
               tt "main" noPayload opts o "oc_7" eq_refl (or_introl eq_refl)
               eq_refl eq_refl eq_refl _ _)
            _).
  - intros [c [Hc _]]. discriminate Hc.
  - intros [t [Ht _]]. discriminate Ht.
  - reflexivity.
Defined.

(* ===================================================================== *)
(** ** The rolling summary                                                *)
(* ===================================================================== *)

Section RollingSummary.

Import RollingMemory.











End RollingSummary.



(** X18.  Off the origin short-circuit, the origin's [accountId] and
    [threadId] are never read: two origins with the same channel and
    recipient give the same answer. *)
Theorem origin_account_and_thread_unused {Cfg Err : Type}
    {imports : ResolverImports Cfg Err}
    (cfg : Cfg) (agentId : string) (jobPayload : JobPayload)
    (opts opts' : ResolveOptions) (o o' : CronOrigin) :
  options_origin opts = Some o ->
  options_origin opts' = Some o' ->
  options_deliveryMode opts = options_deliveryMode opts' ->
  origin_channel o = origin_channel o' ->
  origin_to o = origin_to o' ->
  originShortCircuit jobPayload (Some opts) = None ->
  resolveDeliveryTarget cfg agentId jobPayload (Some opts)
  = resolveDeliveryTarget cfg agentId jobPayload (Some opts').
Proof.
  intros Ho Ho' Hm Hch Hto Hnone.
  assert (Hu : useOrigin jobPayload (Some opts) = useOrigin jobPayload (Some opts')).
  { unfold useOrigin, deliveryMode, origin. now rewrite Ho, Ho', Hm, Hch, Hto. }
  assert (Hoc : originChannel (Some opts) = originChannel (Some opts')).
  { unfold originChannel, origin. now rewrite Ho, Ho'. }
  assert (Hot : originTo (Some opts) = originTo (Some opts')).
  { unfold originTo, origin. now rewrite Ho, Ho'. }
  apply resolve_congruence.
  - rewrite Hnone. symmetry.
    unfold originShortCircuit, origin in *. rewrite Ho in Hnone. rewrite Ho'.
    rewrite <- Hu, <- Hch, <- Hto.
    destruct (origin_channel o) as [ch|]; [|reflexivity].
    destruct (origin_to o) as [t|]; [|reflexivity].
    destruct (useOrigin jobPayload (Some opts) && negb (Js.isEmpty ch)
              && negb (Js.isEmpty t)); [discriminate|reflexivity].
  - now rewrite Hu, Hoc.
  - unfold requestedChannel. now rewrite Hu, Hoc.
  - unfold explicitTo. now rewrite Hu, Hot.
  - reflexivity.
Qed.

Lemma origin_account_and_thread_unused_witness :
  let env := exampleImports feishuStore (Threw "none") in
  let o :=
    {| origin_channel := Some "feishu"; origin_to := None;
       origin_accountId := Some "bot-z";
       origin_threadId := Some (ThreadIdString "t1") |} in
  let bare :=
    {| origin_channel := Some "feishu"; origin_to := None;
       origin_accountId := None; origin_threadId := None |} in
  resolveDeliveryTarget (imports := env) tt "main" noPayload
    (Some {| options_origin := Some o; options_deliveryMode := None |})
  = resolveDeliveryTarget (imports := env) tt "main" noPayload
      (Some {| options_origin := Some bare; options_deliveryMode := None |}).
Proof.
  intros env o bare.
  apply (origin_account_and_thread_unused (imports := env) tt "main" noPayload
           _ _ o bare); reflexivity.
Defined.
